(** * IntelliMatch: the CSV deduplicator of [src/main.py]

    A shallow embedding of the class [CSVDeduplicator] and of the parts of
    Python it relies on: [str.strip], [str.lower], insertion-ordered
    dictionaries, [csv.DictReader], the [with open(...)] statement and the
    calls into the third-party [dedupe] library.

    Text is modelled as [string] and restricted to ASCII: on ASCII text
    [str.lower] is the letter-wise map of ['A'..'Z'] to ['a'..'z'] and the
    white space removed by [str.strip] is the set of code points
    9-13, 28-31 and 32.  Floating-point scores are never computed with by
    this program, only passed from the library to the output, and are
    carried as rationals.

    A [string] stands for the UTF-8 bytes of a Python [str].  The functions
    [lower] and [strip] below are those of Python on ASCII text ([is_ascii]);
    statements about the values they produce carry that hypothesis.  File
    objects are finalised as CPython does it: a file object that nothing
    refers to any more is closed when the call it was passed to returns,
    and stays open while an exception propagates, whose traceback keeps the
    frames that hold it. *)

From Stdlib Require Import QArith Ascii.
From stdpp Require Import base option list strings gmap.

Local Open Scope string_scope.
Local Open Scope list_scope.

(** ** Python values *)

Module Py.

(** The objects that can occur as keys and values of the dictionaries
    built by [csv.DictReader]: a [str], [None] (the default [restval] and
    [restkey]) or a list of [str] (the surplus cells of a long row). *)
Inductive pyval :=
| PStr (s : string)
| PNone
| PList (l : list string).

#[global] Instance pyval_eq_dec : EqDecision pyval.
Proof. solve_decision. Defined.

(** Exceptions, by class.  [LibraryError] stands for any exception raised
    inside the [dedupe] library, with the name of its class. *)
Inductive exn :=
| AssertionError (msg : string)
| KeyError (key : pyval)
| AttributeError (msg : string)
| FileNotFoundError (path : string)
| LibraryError (cls msg : string).

Definition exn_class (e : exn) : string :=
  match e with
  | AssertionError _ => "AssertionError"
  | KeyError _ => "KeyError"
  | AttributeError _ => "AttributeError"
  | FileNotFoundError _ => "FileNotFoundError"
  | LibraryError cls _ => cls
  end.

Inductive result (A : Type) :=
| Ok (a : A)
| Raise (e : exn).
Arguments Ok {A} a.
Arguments Raise {A} e.

Definition rbind {A B} (r : result A) (k : A -> result B) : result B :=
  match r with
  | Ok a => k a
  | Raise e => Raise e
  end.

(** *** [str.strip] and [str.lower] on ASCII text *)

Definition is_space (c : ascii) : bool :=
  let n := Ascii.N_of_ascii c in
  ((9 <=? n) && (n <=? 13) || (28 <=? n) && (n <=? 32))%N.

Definition lower_char (c : ascii) : ascii :=
  let n := Ascii.N_of_ascii c in
  if ((65 <=? n) && (n <=? 90))%N then Ascii.ascii_of_N (n + 32) else c.

Fixpoint lower (s : string) : string :=
  match s with
  | EmptyString => EmptyString
  | String c s' => String (lower_char c) (lower s')
  end.

Fixpoint lstrip (s : string) : string :=
  match s with
  | EmptyString => EmptyString
  | String c s' => if is_space c then lstrip s' else s
  end.

Fixpoint rstrip (s : string) : string :=
  match s with
  | EmptyString => EmptyString
  | String c s' =>
      match rstrip s' with
      | EmptyString => if is_space c then EmptyString else String c EmptyString
      | r => String c r
      end
  end.

Definition strip (s : string) : string := rstrip (lstrip s).

(** *** Dictionaries

    A Python [dict] keeps its keys in insertion order and assigning to a
    key that is present replaces the value in place. *)

Section Dict.
Context {K V : Type} `{EqDecision K}.

Definition dict := list (K * V).

Fixpoint dict_get (k : K) (d : list (K * V)) : option V :=
  match d with
  | [] => None
  | (k', v) :: d' => if decide (k = k') then Some v else dict_get k d'
  end.

Fixpoint dict_set (k : K) (v : V) (d : list (K * V)) : list (K * V) :=
  match d with
  | [] => [(k, v)]
  | (k', v') :: d' =>
      if decide (k = k') then (k', v) :: d' else (k', v') :: dict_set k v d'
  end.

(** [dict(pairs)]: later pairs win. *)
Definition dict_of (pairs : list (K * V)) : list (K * V) :=
  fold_left (fun d kv => dict_set kv.1 kv.2 d) pairs [].

Definition keys (d : list (K * V)) : list K := map fst d.
End Dict.

(** A list comprehension whose element expression may raise: the first
    exception, in list order, ends it. *)
Fixpoint comprehension {A B} (f : A -> result B) (l : list A) : result (list B) :=
  match l with
  | [] => Ok []
  | x :: l' => rbind (f x) (fun y => rbind (comprehension f l') (fun ys => Ok (y :: ys)))
  end.

(** A [for] loop that threads an accumulator and stops at the first
    exception. *)
Fixpoint for_each {A S} (body : S -> A -> result S) (l : list A) (s : S) : result S :=
  match l with
  | [] => Ok s
  | x :: l' => rbind (body s x) (for_each body l')
  end.

End Py.
Import Py.

(** ** [csv.DictReader]

    The text of a file is taken as the rows the [csv] reader yields for it,
    one list of cells per line, a blank line being the empty list.  The
    first row names the fields.  Blank rows are skipped; a row with more
    cells than the header gets its surplus under the key [None]; a row with
    fewer cells gets [None] as the value of the remaining fields. *)

Definition row_dict (fieldnames row : list string) : list (pyval * pyval) :=
  let d := dict_of (zip (map PStr fieldnames) (map PStr row)) in
  let lf := length fieldnames in
  let lr := length row in
  if (lf <? lr)%nat then dict_set PNone (PList (drop lf row)) d
  else if (lr <? lf)%nat then
    fold_left (fun d key => dict_set (PStr key) PNone d) (drop lr fieldnames) d
  else d.

Definition is_blank (row : list string) : bool :=
  match row with [] => true | _ => false end.

Definition DictReader (rows : list (list string)) : list (list (pyval * pyval)) :=
  match rows with
  | [] => []
  | fieldnames :: body =>
      map (row_dict fieldnames) (filter (fun r => is_blank r = false) body)
  end.

(** ** [CSVDeduplicator.read_data]: the loop over the rows *)

(** [v.strip().lower()] for a value [v] of a row. *)
Definition strip_lower (v : pyval) : result pyval :=
  match v with
  | PStr s => Ok (PStr (lower (strip s)))
  | PNone => Raise (AttributeError "'NoneType' object has no attribute 'strip'")
  | PList _ => Raise (AttributeError "'list' object has no attribute 'strip'")
  end.

Definition clean_item (kv : pyval * pyval) : result (pyval * pyval) :=
  rbind (strip_lower kv.2) (fun v => Ok (kv.1, v)).

(** One iteration: [clean_row], then [row_id = row["id"]], then
    [data_d[row_id] = dict(clean_row)]. *)
Definition read_row (data_d : list (pyval * list (pyval * pyval)))
    (row : list (pyval * pyval)) : result (list (pyval * list (pyval * pyval))) :=
  rbind (comprehension clean_item row) (fun clean_row =>
  match dict_get (PStr "id") row with
  | None => Raise (KeyError (PStr "id"))
  | Some row_id => Ok (dict_set row_id (dict_of clean_row) data_d)
  end).

Definition read_rows (rows : list (list string))
  : result (list (pyval * list (pyval * pyval))) :=
  for_each read_row (DictReader rows) [].

(** ** [CSVDeduplicator.define_fields]: the loop over the field names *)

(** [dedupe.variables.String(field, has_missing=...)]. *)
Record variable := String_ { field : string; has_missing : bool }.

(** The loop: start from the empty list and append one definition per
    declared field. *)
Definition append_definitions (fields : list string) : list variable :=
  fold_left (fun field_definitions field =>
               field_definitions ++ [String_ field true]) fields [].

(** ** [CSVDeduplicator.deduplicate]: the rows handed to [csv.writer] *)

Inductive cell :=
| CObj (v : pyval)
| CInt (n : nat)
| CFloat (q : Q).

Definition header_row : list cell :=
  [CObj (PStr "id"); CObj (PStr "Cluster ID"); CObj (PStr "confidence_score")].

(** The inner loop: [for record_id, score in zip(records, scores)]. *)
Definition cluster_rows (cluster_id : nat) (cluster : list pyval * list Q)
  : list (list cell) :=
  map (fun rs => [CObj rs.1; CInt cluster_id; CFloat rs.2]) (zip cluster.1 cluster.2).

(** The outer loop: [for cluster_id, (records, scores) in enumerate(...)]. *)
Definition output_rows (clustered_dupes : list (list pyval * list Q))
  : list (list cell) :=
  header_row :: concat (imap cluster_rows clustered_dupes).


(** ** The environment: files, handles, console and the [dedupe] library *)

(** The [dedupe] library and the [csv] tokenizer, as the interface the
    program calls.  [Content] is what a file holds; [Deduper] is the state
    of a [dedupe.Dedupe] or [dedupe.StaticDedupe] object; [Answer] is one
    reply typed at the labelling console.  Every library call may raise. *)
Class DedupeLib := {
  Content : Type;
  Deduper : Type;
  Answer : Type;
  empty_file : Content;
  csv_reader : Content -> list (list string);
  csv_writer : list (list cell) -> Content;
  StaticDedupe : Content -> result Deduper;
  Dedupe : list variable -> result Deduper;
  prepare_training : Deduper -> list (pyval * list (pyval * pyval)) -> result Deduper;
  console_label : Deduper -> list Answer -> result Deduper * list Answer;
  train : Deduper -> result Deduper;
  write_training : Deduper -> result Content;
  write_settings : Deduper -> result Content;
  match_ : Deduper -> list (pyval * list (pyval * pyval)) -> Q ->
           result (list (list pyval * list Q));
  (** the field names a classifier was trained against *)
  trained_fields : Deduper -> list string;
  (** what [write_training] and [write_settings] had already written to
      the handle they were given when they raised *)
  partial_training : Deduper -> Content;
  partial_settings : Deduper -> Content;
}.

(** The library entry points, as they appear in the log of a run. *)
Inductive call :=
| CallStaticDedupe
| CallDedupe
| CallPrepareTraining
| CallConsoleLabel
| CallTrain
| CallWriteTraining
| CallWriteSettings
| CallMatch.

#[global] Instance call_eq_dec : EqDecision call.
Proof. solve_decision. Defined.

Section Program.
Context `{lib : DedupeLib}.

(** The state outside the object: the file system, the open file handles
    (handle to path), the next free handle, the library calls made so far
    (oldest first) and the replies still waiting at the console. *)
Record world := World {
  fs : gmap string Content;
  handles : gmap nat string;
  next_fd : nat;
  calls : list call;
  stdin : list Answer;
}.

Definition M (A : Type) : Type := world -> result A * world.

Definition ret {A} (a : A) : M A := fun w => (Ok a, w).
Definition raise {A} (e : exn) : M A := fun w => (Raise e, w).
Definition bind {A B} (m : M A) (k : A -> M B) : M B := fun w =>
  match m w with
  | (Ok a, w') => k a w'
  | (Raise e, w') => (Raise e, w')
  end.

Notation "x <- m ;; k" := (bind m (fun x => k))
  (at level 100, m at next level, right associativity).
Notation "m ;;; k" := (bind m (fun _ => k))
  (at level 100, right associativity).

(** [assert cond, msg] *)
Definition assert (cond : bool) (msg : string) : M unit :=
  if cond then ret tt else raise (AssertionError msg).

(** [os.path.exists(path)] *)
Definition path_exists (path : string) : M bool := fun w =>
  (Ok (bool_decide (is_Some (fs w !! path))), w).

Inductive mode := ModeR | ModeW.

(** [open(path, mode)]: a fresh handle; reading needs the file to exist,
    writing creates or truncates it. *)
Definition open (path : string) (m : mode) : M nat := fun w =>
  let fd := next_fd w in
  match m with
  | ModeR =>
      match fs w !! path with
      | Some _ =>
          (Ok fd, World (fs w) (<[fd := path]> (handles w)) (S fd) (calls w) (stdin w))
      | None => (Raise (FileNotFoundError path), w)
      end
  | ModeW =>
      (Ok fd, World (<[path := empty_file]> (fs w)) (<[fd := path]> (handles w))
                    (S fd) (calls w) (stdin w))
  end.

Definition close (fd : nat) (w : world) : world :=
  World (fs w) (delete fd (handles w)) (next_fd w) (calls w) (stdin w).

(** [with open(path, mode) as f: body]: the handle is closed when the
    body is left, normally or by an exception. *)
Definition with_open {A} (path : string) (m : mode) (body : nat -> M A) : M A :=
  fun w =>
    match open path m w with
    | (Ok fd, w1) => let (r, w2) := body fd w1 in (r, close fd w2)
    | (Raise e, w1) => (Raise e, w1)
    end.

(** What is read from, or written to, an open handle. *)
Definition read_handle (fd : nat) : M Content := fun w =>
  match handles w !! fd with
  | Some path =>
      match fs w !! path with
      | Some c => (Ok c, w)
      | None => (Raise (FileNotFoundError path), w)
      end
  | None => (Raise (LibraryError "ValueError" "I/O operation on closed file"), w)
  end.

Definition write_handle (fd : nat) (c : Content) : M unit := fun w =>
  match handles w !! fd with
  | Some path =>
      (Ok tt, World (<[path := c]> (fs w)) (handles w) (next_fd w) (calls w) (stdin w))
  | None => (Raise (LibraryError "ValueError" "I/O operation on closed file"), w)
  end.

(** A call into the library: logged, then its result or its exception. *)
Definition lib_call {A} (c : call) (r : result A) : M A := fun w =>
  (r, World (fs w) (handles w) (next_fd w) (calls w ++ [c]) (stdin w)).

(** A library call that is given an open handle and writes to it,
    [deduper.write_training(tf)] or [deduper.write_settings(sf)]: when it
    returns, the file holds what it wrote; when it raises, the file holds
    what it had written until then. *)
Definition lib_write (c : call) (r : result Content) (written : Content)
    (fd : nat) : M unit := fun w =>
  let w1 := World (fs w) (handles w) (next_fd w) (calls w ++ [c]) (stdin w) in
  match r with
  | Ok content => write_handle fd content w1
  | Raise e => (Raise e, (write_handle fd written w1).2)
  end.

(** The finalisation of a file object that nothing refers to any more. *)
Definition finalize (fd : nat) : M unit := fun w => (Ok tt, close fd w).

(** [dedupe.console_label(deduper)]: the library's labelling loop, which
    consumes replies from the console. *)
Definition lib_console_label (d : Deduper) : M Deduper := fun w =>
  let (r, rest) := console_label d (stdin w) in
  (r, World (fs w) (handles w) (next_fd w) (calls w ++ [CallConsoleLabel]) rest).

(** ** The class [CSVDeduplicator] *)

Record CSVDeduplicator := Self {
  input_file : string;
  output_file : string;
  settings_file : string;
  training_file : string;
  fields : list string;
  deduper : option Deduper;
  data : list (pyval * list (pyval * pyval));
}.

Definition set_deduper (self : CSVDeduplicator) (d : Deduper) : CSVDeduplicator :=
  Self (input_file self) (output_file self) (settings_file self)
       (training_file self) (fields self) (Some d) (data self).

Definition lift {A} (r : result A) : M A := fun w => (r, w).

(** The [isinstance(..., str)] assertions of the class hold by typing:
    paths are [string]s. *)
Definition read_data (input_file : string)
  : M (list (pyval * list (pyval * pyval))) :=
  ex <- path_exists input_file ;;
  assert ex "Input file not found." ;;;
  with_open input_file ModeR (fun f =>
    c <- read_handle f ;;
    lift (read_rows (csv_reader c))).

Definition init (input_file output_file settings_file training_file : string)
    (fields : list string) : M CSVDeduplicator :=
  d <- read_data input_file ;;
  ret (Self input_file output_file settings_file training_file fields None d).

(** The method has the whole object at hand, [self.data] included, and
    reads [self.fields] only. *)
Definition define_fields (self : CSVDeduplicator) : M (list variable) :=
  ret (append_definitions (fields self)).

Definition active_learning (d : Deduper) : M Deduper :=
  lib_console_label d.

Definition save_settings_and_training (self : CSVDeduplicator) (d : Deduper) : M unit :=
  with_open (training_file self) ModeW (fun tf =>
    lib_write CallWriteTraining (write_training d) (partial_training d) tf) ;;;
  with_open (settings_file self) ModeW (fun sf =>
    lib_write CallWriteSettings (write_settings d) (partial_settings d) sf).

Definition setup_deduper (self : CSVDeduplicator) : M CSVDeduplicator :=
  ex <- path_exists (settings_file self) ;;
  if ex then
    (* [StaticDedupe(open(self.settings_file, "rb"))]: the file object is
       a temporary, opened outside any [with] block *)
    f <- open (settings_file self) ModeR ;;
    c <- read_handle f ;;
    d <- lib_call CallStaticDedupe (StaticDedupe c) ;;
    finalize f ;;;
    ret (set_deduper self d)
  else
    field_definitions <- define_fields self ;;
    d0 <- lib_call CallDedupe (Dedupe field_definitions) ;;
    d1 <- lib_call CallPrepareTraining (prepare_training d0 (data self)) ;;
    d2 <- active_learning d1 ;;
    d3 <- lib_call CallTrain (train d2) ;;
    save_settings_and_training self d3 ;;;
    ret (set_deduper self d3).

Definition deduplicate (self : CSVDeduplicator) : M unit :=
  match deduper self with
  | None => raise (AttributeError "'NoneType' object has no attribute 'match'")
  | Some d =>
      clustered_dupes <- lib_call CallMatch (match_ d (data self) (1 # 2)) ;;
      with_open (output_file self) ModeW (fun f =>
        write_handle f (csv_writer (output_rows clustered_dupes)))
  end.

Definition run (self : CSVDeduplicator) : M unit :=
  self' <- setup_deduper self ;;
  deduplicate self'.

(** [main]: build the object from the command-line arguments, then [run]. *)
Definition main (input_file output_file settings_file training_file : string)
    (fields : list string) : M unit :=
  deduplicator <- init input_file output_file settings_file training_file fields ;;
  run deduplicator.

End Program.

(** ** A small implementation of the library interface

    Used to run the program on concrete inputs.  Its classifier links two
    records exactly when they carry the same value for every trained field
    and scores such a link 1; [match] returns the groups of linked records
    that have at least two members.  A settings file holds the trained field
    names, a training file the number of labels given at the console. *)

Module ExactMatch.

Inductive content :=
| Empty
| Text (rows : list (list string))
| Table (rows : list (list cell))
| Model (trained : list string)
| Labels (n : nat).

Inductive answer := Yes | No | Unsure | Finished.

Record deduper := Deduper_ { d_fields : list string; d_labels : nat }.

Definition reader (c : content) : list (list string) :=
  match c with
  | Text rows => rows
  | _ => []
  end.

Definition load (c : content) : result deduper :=
  match c with
  | Model trained => Ok (Deduper_ trained 0)
  | _ => Raise (LibraryError "SettingsFileLoadError" "cannot load settings")
  end.

(** The labelling loop reads replies until [Finished]. *)
Fixpoint label (d : deduper) (replies : list answer) : result deduper * list answer :=
  match replies with
  | [] => (Ok d, [])
  | Finished :: rest => (Ok d, rest)
  | Unsure :: rest => label d rest
  | _ :: rest => label (Deduper_ (d_fields d) (S (d_labels d))) rest
  end.

Definition signature (trained : list string) (record : list (pyval * pyval))
  : list (option pyval) :=
  map (fun f => dict_get (PStr f) record) trained.

Fixpoint add_to_groups (sig : list (option pyval)) (record_id : pyval)
    (groups : list (list (option pyval) * list pyval))
  : list (list (option pyval) * list pyval) :=
  match groups with
  | [] => [(sig, [record_id])]
  | (sig', ids) :: rest =>
      if decide (sig = sig') then (sig', ids ++ [record_id]) :: rest
      else (sig', ids) :: add_to_groups sig record_id rest
  end.

Definition clusters (d : deduper) (data : list (pyval * list (pyval * pyval)))
  : list (list pyval * list Q) :=
  let groups :=
    fold_left (fun gs kv => add_to_groups (signature (d_fields d) kv.2) kv.1 gs) data [] in
  omap (fun g => if (2 <=? length g.2)%nat
                 then Some (g.2, map (fun _ => 1%Q) g.2) else None) groups.

#[global] Instance lib : DedupeLib := {|
  Content := content;
  Deduper := deduper;
  Answer := answer;
  empty_file := Empty;
  csv_reader := reader;
  csv_writer := Table;
  StaticDedupe := load;
  Dedupe := fun vars => Ok (Deduper_ (map field vars) 0);
  prepare_training := fun d _ => Ok d;
  console_label := label;
  train := fun d => Ok d;
  write_training := fun d => Ok (Labels (d_labels d));
  write_settings := fun d => Ok (Model (d_fields d));
  match_ := fun d data _ => Ok (clusters d data);
  trained_fields := d_fields;
  partial_training := fun _ => Empty;
  partial_settings := fun _ => Empty;
|}.

Definition world0 (files : list (string * content)) (replies : list answer) : world :=
  World (list_to_map files) ∅ 3 [] replies.

End ExactMatch.

(** ** The same implementation with faults

    Training refuses a classifier that was given no label, and each of the
    two writes raises when told to, after it has written a part: the
    training data without the last label, the settings without the field
    names. *)

Module Faulty.

Definition train_labelled (d : ExactMatch.deduper) : result ExactMatch.deduper :=
  match ExactMatch.d_labels d with
  | O => Raise (LibraryError "ValueError" "no labelled pairs to train on")
  | S _ => Ok d
  end.

Definition write (fails : bool) (c : ExactMatch.content) : result ExactMatch.content :=
  if fails then Raise (LibraryError "OSError" "No space left on device") else Ok c.

Definition lib (training_write_fails settings_write_fails : bool) : DedupeLib := {|
  Content := ExactMatch.content;
  Deduper := ExactMatch.deduper;
  Answer := ExactMatch.answer;
  empty_file := ExactMatch.Empty;
  csv_reader := ExactMatch.reader;
  csv_writer := ExactMatch.Table;
  StaticDedupe := ExactMatch.load;
  Dedupe := fun vars => Ok (ExactMatch.Deduper_ (map field vars) 0);
  prepare_training := fun d _ => Ok d;
  console_label := ExactMatch.label;
  train := train_labelled;
  write_training := fun d =>
    write training_write_fails (ExactMatch.Labels (ExactMatch.d_labels d));
  write_settings := fun d =>
    write settings_write_fails (ExactMatch.Model (ExactMatch.d_fields d));
  match_ := fun d data _ => Ok (ExactMatch.clusters d data);
  trained_fields := ExactMatch.d_fields;
  partial_training := fun d => ExactMatch.Labels (pred (ExactMatch.d_labels d));
  partial_settings := fun _ => ExactMatch.Model [];
|}.

Definition world0 (tf sf : bool) (files : list (string * ExactMatch.content))
    (replies : list ExactMatch.answer) : @world (lib tf sf) :=
  @World (lib tf sf) (list_to_map files) ∅ 3 [] replies.

Definition self0 (tf sf : bool) : @CSVDeduplicator (lib tf sf) :=
  @Self (lib tf sf) "in.csv" "out.csv" "model" "labels" ["name"] None [].

End Faulty.

(** ** The prompt templates of [src/gpt.py]

    [GPTModelHandler] and its four subclasses.  The remote service is a
    parameter: [create api_key model messages] stands for
    [OpenAI(api_key=...).chat.completions.create(model=..., messages=...)]
    and gives the contents of the returned choices, or the exception of the
    client.  [API_KEY] is the module constant read from the secrets store.
    Logging is left out. *)

Module Gpt.

Record message := Message { role : string; content : string }.

Inductive completion :=
| Choices (contents : list (option string))
| ClientError (cls msg : string).

Inductive outcome :=
| Returned (content : option string)
| Raised (cls msg : string).

(** The line feed, and a text given line by line. *)
Definition nl : string := String (Ascii.ascii_of_nat 10) EmptyString.

Record GPTModelHandler := Handler {
  api_key : string;
  model : string;
  prompt : string;
}.

Section Client.
Variable API_KEY : string.
Variable create : string -> string -> list message -> completion.

(** [GPTModelHandler()] with its default arguments, as the subclasses
    call it through [super().__init__()]. *)
Definition default_handler : GPTModelHandler :=
  Handler API_KEY "gpt-4o" "This is a test".

Definition set_prompt (self : GPTModelHandler) (p : string) : GPTModelHandler :=
  Handler (api_key self) (model self) p.

(** [response.choices[0].message.content] *)
Definition first_content (r : completion) : outcome :=
  match r with
  | Choices (c :: _) => Returned c
  | Choices [] => Raised "IndexError" "list index out of range"
  | ClientError cls msg => Raised cls msg
  end.

(** [generate_response(system_role)]; the default of [system_role] is
    ["system"]. *)
Definition generate_response (self : GPTModelHandler) (system_role : string) : outcome :=
  first_content
    (create (api_key self) (model self) [Message system_role (prompt self)]).

(** The constructors: the handler of each subclass after [__init__]. *)
Definition PromptOptimizer (prompt : string) : GPTModelHandler :=
  set_prompt default_handler
    (String.concat nl
      [ " You are a world class prompt engineer. Please improve and enhance this prompt: " +:+ prompt +:+ ".   Guidelines:";
        "        - Use your analytics prowness and creative imagination to return a stellar prompt for me.";
        "        - Output should not include any explanation on the changes, just the revied prompts" ]).

Definition TOCD (task output context data : string) : GPTModelHandler :=
  set_prompt default_handler
    (String.concat nl
      [ " ";
        "        ";
        "        Complete this Task:" +:+ task +:+ ".";
        EmptyString;
        "        Format for Output: " +:+ output;
        EmptyString;
        "        To Ensure Relevance Remember: " +:+ context;
        EmptyString;
        "        Here is Data you Need for Your Response: " +:+ data;
        "        " ]).

Definition RTAO (role task audience output : string) : GPTModelHandler :=
  set_prompt default_handler
    (String.concat nl
      [ EmptyString;
        EmptyString;
        "        Act as a " +:+ role +:+ ".";
        EmptyString;
        "        Accomplish this task: " +:+ task +:+ ".";
        EmptyString;
        "        The target audience/demographic for your response is: " +:+ audience +:+ ".";
        EmptyString;
        "        Your response should confirm to this output: " +:+ output;
        "        " ]).

Definition Ultimate (role behavior task structure constraints data : string)
  : GPTModelHandler :=
  set_prompt default_handler
    (String.concat nl
      [ EmptyString;
        EmptyString;
        "        Act as a " +:+ role +:+ ". Your key traits are " +:+ behavior +:+ ". ";
        EmptyString;
        "        Help me with this task: " +:+ task +:+ ".";
        EmptyString;
        "        Your response/output should be formatted like this: " +:+ structure +:+ ".";
        EmptyString;
        "        Note: here are the relevant constaints: " +:+ constraints;
        EmptyString;
        "        You can reference this data to help you with your response: " +:+ data;
        "        " ]).

(** [response()], the same in the four subclasses:
    [return self.generate_response(self.prompt)]. *)
Definition response (self : GPTModelHandler) : outcome :=
  generate_response self (prompt self).

End Client.

End Gpt.

(** ** Vocabulary of the statements *)

(** The value stored for a cell: the text trimmed and lower-cased. *)
Definition cleaned (v : option pyval) : option pyval :=
  match v with
  | Some (PStr s) => Some (PStr (lower (strip s)))
  | _ => None
  end.

(** [record] is the cleaned image of [row]: same keys, every value
    trimmed and lower-cased. *)
Definition clean_of (record row : list (pyval * pyval)) : Prop :=
  forall k, dict_get k record = cleaned (dict_get k row).

Definition all_str (row : list (pyval * pyval)) : Prop :=
  Forall (fun kv => exists s, kv.2 = PStr s) row.

(** The rows of a file that [csv.DictReader] turns into dictionaries. *)
Definition data_rows (body : list (list string)) : list (list string) :=
  filter (fun r => is_blank r = false) body.

(** The score of an output row (column [confidence_score]). *)
Definition score_of (row : list cell) : option Q :=
  match row with
  | [_; _; CFloat q] => Some q
  | _ => None
  end.

(** Handles are handed out in increasing order: none at or above
    [next_fd] is in use. *)
Definition fresh_handles `{lib : DedupeLib} (w : world) : Prop :=
  forall fd, (next_fd w <= fd)%nat -> handles w !! fd = None.

(** The identifiers of the rows, in file order. *)
Definition row_ids (rows : list (list (pyval * pyval))) : list pyval :=
  omap (dict_get (PStr "id")) rows.

(** The cluster number of an output row (column [Cluster ID]). *)
Definition cluster_of (row : list cell) : option nat :=
  match row with
  | [_; CInt n; _] => Some n
  | _ => None
  end.

(** Text that does not begin with white space. *)
Definition no_leading_space (s : string) : Prop :=
  match s with
  | EmptyString => True
  | String c _ => is_space c = false
  end.

(** ASCII text: every byte below 128.  On such text [lower] and [strip]
    are Python's [str.lower] and [str.strip]. *)
Definition is_ascii_char (c : ascii) : bool := (Ascii.N_of_ascii c <? 128)%N.

Fixpoint is_ascii (s : string) : bool :=
  match s with
  | EmptyString => true
  | String c s' => is_ascii_char c && is_ascii s'
  end.

(** A file all of whose cells, header included, are ASCII text. *)
Definition ascii_rows (rows : list (list string)) : bool :=
  forallb (forallb is_ascii) rows.

(** The letter U+00DF, sharp s, in UTF-8. *)
Definition eszett : string :=
  String (Ascii.ascii_of_nat 195) (String (Ascii.ascii_of_nat 159) EmptyString).

(** Case folding, the normalization the claims name, on text made of ASCII
    characters and sharp s: the letters A-Z fold to a-z and sharp s folds to
    "ss" ([str.casefold]); the source calls [str.lower], which leaves
    sharp s as it is. *)
Fixpoint casefold (s : string) : string :=
  match s with
  | EmptyString => EmptyString
  | String c s' =>
      match s' with
      | String c' s'' =>
          if ((Ascii.N_of_ascii c =? 195) && (Ascii.N_of_ascii c' =? 159))%N
          then String "s" (String "s" (casefold s''))
          else String (lower_char c) (casefold s')
      | EmptyString => String (lower_char c) EmptyString
      end
  end.

(** * Properties *)

(** ** Dictionaries *)

Section DictFacts.
Context {K V : Type} `{EqDecision K}.
Implicit Types (k : K) (v : V) (d : list (K * V)).

Lemma dict_get_set_eq k v d : dict_get k (dict_set k v d) = Some v.
Proof.
  induction d as [|[k' v'] d IH]; simpl.
  - by rewrite decide_True.
  - destruct (decide (k = k')) as [->|Hne]; simpl.
    + by rewrite decide_True.
    + by rewrite decide_False.
Qed.

Lemma dict_get_set_ne k k' v d :
  k ≠ k' → dict_get k' (dict_set k v d) = dict_get k' d.
Proof.
  intros Hne. induction d as [|[k0 v0] d IH]; simpl.
  - rewrite decide_False; [done | congruence].
  - destruct (decide (k = k0)) as [->|Hk]; simpl.
    + rewrite !decide_False; [done | congruence | congruence].
    + destruct (decide (k' = k0)); [done | apply IH].
Qed.

Lemma dict_get_None k d : dict_get k d = None ↔ k ∉ keys d.
Proof.
  induction d as [|[k' v'] d IH]; simpl.
  - split; [intros _; apply not_elem_of_nil | done].
  - rewrite not_elem_of_cons. destruct (decide (k = k')) as [->|Hne].
    + split; [done | intros [? _]; done].
    + rewrite IH. tauto.
Qed.

Lemma dict_get_Some_key k v d : dict_get k d = Some v → k ∈ keys d.
Proof.
  intros Hget. destruct (decide (k ∈ keys d)) as [|Hn]; [done|].
  apply dict_get_None in Hn. congruence.
Qed.

Lemma dict_get_Some_value k v d : dict_get k d = Some v → (k, v) ∈ d.
Proof.
  induction d as [|[k' v'] d IH]; simpl; [done|].
  destruct (decide (k = k')) as [->|Hne].
  - intros [= ->]. apply elem_of_cons; by left.
  - intros Hget. apply elem_of_cons; right; by apply IH.
Qed.

Lemma dict_set_fresh k v d : k ∉ keys d → dict_set k v d = d ++ [(k, v)].
Proof.
  induction d as [|[k' v'] d IH]; simpl; [done|].
  rewrite not_elem_of_cons. intros [Hne Hnin].
  rewrite decide_False by done. by rewrite IH.
Qed.

Lemma keys_dict_set_elem k k' v d :
  k' ∈ keys (dict_set k v d) ↔ k' = k ∨ k' ∈ keys d.
Proof.
  induction d as [|[k0 v0] d IH]; simpl.
  - rewrite elem_of_cons. tauto.
  - destruct (decide (k = k0)) as [->|Hne]; simpl; rewrite !elem_of_cons.
    + tauto.
    + rewrite IH. tauto.
Qed.

Lemma NoDup_keys_dict_set k v d : NoDup (keys d) → NoDup (keys (dict_set k v d)).
Proof.
  induction d as [|[k0 v0] d IH]; simpl; intros Hnd.
  - apply NoDup_singleton.
  - apply NoDup_cons in Hnd as [Hnin Hnd].
    destruct (decide (k = k0)) as [->|Hne]; simpl.
    + by apply NoDup_cons.
    + apply NoDup_cons. split; [|by apply IH].
      rewrite keys_dict_set_elem. intros [->|?]; done.
Qed.

Lemma NoDup_keys_fold_set {A} (f : A → K) (g : A → V) (l : list A) d :
  NoDup (keys d) →
  NoDup (keys (fold_left (fun d x => dict_set (f x) (g x) d) l d)).
Proof.
  revert d. induction l as [|x l IH]; simpl; intros d Hnd; [done|].
  apply IH. by apply NoDup_keys_dict_set.
Qed.

Lemma NoDup_keys_dict_of (l : list (K * V)) : NoDup (keys (dict_of l)).
Proof. apply (NoDup_keys_fold_set fst snd). apply NoDup_nil_2. Qed.

Lemma fold_set_NoDup (l acc : list (K * V)) :
  NoDup (keys (acc ++ l)) →
  fold_left (fun d kv => dict_set kv.1 kv.2 d) l acc = acc ++ l.
Proof.
  revert acc. induction l as [|[k v] l IH]; simpl; intros acc Hnd.
  - by rewrite app_nil_r.
  - rewrite dict_set_fresh.
    + rewrite IH; rewrite <- app_assoc; done.
    + unfold keys in Hnd. rewrite map_app in Hnd.
      apply NoDup_app in Hnd as (_ & Hdisj & _).
      intros Hin. apply (Hdisj k Hin). simpl. apply elem_of_cons; by left.
Qed.

(** [dict(pairs)] of pairs with distinct keys is the pairs themselves. *)
Lemma dict_of_NoDup (l : list (K * V)) : NoDup (keys l) → dict_of l = l.
Proof. intros Hnd. unfold dict_of. by rewrite fold_set_NoDup. Qed.
End DictFacts.

(** ** Rows *)

Lemma for_each_app {A S} (body : S -> A -> result S) (l1 l2 : list A) (s : S) :
  for_each body (l1 ++ l2) s = rbind (for_each body l1 s) (for_each body l2).
Proof.
  revert s. induction l1 as [|x l1 IH]; simpl; intros s; [done|].
  destruct (body s x); simpl; [apply IH | done].
Qed.

Lemma comprehension_clean row cr :
  comprehension clean_item row = Ok cr →
  keys cr = keys row ∧ clean_of cr row ∧ all_str row.
Proof.
  revert cr. induction row as [|[k v] row IH]; simpl; intros cr Hc.
  - injection Hc as <-. split; [done|]. split; [done | constructor].
  - unfold clean_item in Hc at 1. simpl in Hc.
    destruct v as [s| |l]; simpl in Hc; try discriminate.
    destruct (comprehension clean_item row) as [cr'|e]; simpl in Hc; [|discriminate].
    injection Hc as <-. destruct (IH cr' eq_refl) as (Hk & Hc & Hs).
    split; [simpl; by rewrite Hk|]. split.
    + intros k'. simpl. destruct (decide (k' = k)); [done | apply Hc].
    + constructor; [by exists s | done].
Qed.

Lemma comprehension_all_str row :
  all_str row → ∃ cr, comprehension clean_item row = Ok cr.
Proof.
  induction 1 as [|[k v] row [s Hs] _ [cr IH]]; simpl; [by eexists|].
  simpl in Hs. subst v. unfold clean_item at 1. simpl. rewrite IH. simpl. by eexists.
Qed.

Lemma clean_of_dict_of row cr :
  NoDup (keys row) → comprehension clean_item row = Ok cr →
  clean_of (dict_of cr) row.
Proof.
  intros Hnd Hc. destruct (comprehension_clean _ _ Hc) as (Hk & Hclean & _).
  rewrite dict_of_NoDup; [done | by rewrite Hk].
Qed.

(** One iteration of the loop succeeds exactly when every value of the row
    is a [str] and the row has the key ["id"]. *)
Lemma read_row_Ok data_d row data_d' :
  read_row data_d row = Ok data_d' ↔
  ∃ cr key, comprehension clean_item row = Ok cr
          ∧ dict_get (PStr "id") row = Some key
          ∧ data_d' = dict_set key (dict_of cr) data_d.
Proof.
  unfold read_row. split.
  - destruct (comprehension clean_item row) as [cr|e]; simpl; [|done].
    destruct (dict_get (PStr "id") row) as [key|]; [|done].
    intros [= <-]. by exists cr, key.
  - intros (cr & key & -> & -> & ->). done.
Qed.

(** The identifier of a row that was read is a [str]. *)
Lemma read_row_id_str row cr key :
  comprehension clean_item row = Ok cr →
  dict_get (PStr "id") row = Some key → ∃ raw, key = PStr raw.
Proof.
  intros Hc Hid. destruct (comprehension_clean _ _ Hc) as (_ & _ & Hs).
  apply dict_get_Some_value in Hid.
  unfold all_str in Hs. rewrite Forall_forall in Hs.
  destruct (Hs _ Hid) as [s Hs']. by exists s.
Qed.

(** ** The loop of [read_data] *)

Section Loop.
Implicit Types (rows : list (list (pyval * pyval)))
               (d : list (pyval * list (pyval * pyval))).

(** Keys are never removed and every row read leaves its key. *)
Lemma loop_presence rows d0 d :
  for_each read_row rows d0 = Ok d →
  (∀ k, is_Some (dict_get k d0) → is_Some (dict_get k d))
  ∧ (∀ row, row ∈ rows →
      ∃ raw, dict_get (PStr "id") row = Some (PStr raw)
           ∧ is_Some (dict_get (PStr raw) d)).
Proof.
  revert d0. induction rows as [|r rows IH]; simpl; intros d0 Hloop.
  - injection Hloop as <-. split; [done | intros row Hin; by apply elem_of_nil in Hin].
  - destruct (read_row d0 r) as [d1|e] eqn:Hr; simpl in Hloop; [|done].
    apply read_row_Ok in Hr as (cr & key & Hc & Hid & ->).
    destruct (IH _ Hloop) as [Hkeep Hrows].
    destruct (read_row_id_str _ _ _ Hc Hid) as [raw ->].
    split.
    + intros k Hk. apply Hkeep.
      destruct (decide (PStr raw = k)) as [<-|Hne].
      * rewrite dict_get_set_eq. by eexists.
      * by rewrite dict_get_set_ne.
    + intros row [->|Hin]%elem_of_cons; [|by apply Hrows].
      exists raw. split; [done|]. apply Hkeep. rewrite dict_get_set_eq. by eexists.
Qed.

(** Every stored record is the cleaned image of a row that carries the
    record's key as its identifier. *)
Lemma loop_provenance rows d0 d (P : pyval → list (pyval * pyval) → Prop) :
  Forall (fun row => NoDup (keys row)) rows →
  (∀ row key, row ∈ rows → dict_get (PStr "id") row = Some key →
     ∀ record, clean_of record row → P key record) →
  (∀ key record, dict_get key d0 = Some record → P key record) →
  for_each read_row rows d0 = Ok d →
  ∀ key record, dict_get key d = Some record → P key record.
Proof.
  revert d0. induction rows as [|r rows IH]; simpl; intros d0 Hnd Hrows H0 Hloop.
  - by injection Hloop as <-.
  - destruct (read_row d0 r) as [d1|e] eqn:Hr; simpl in Hloop; [|done].
    apply read_row_Ok in Hr as (cr & k & Hc & Hid & ->).
    apply Forall_cons in Hnd as [Hnd1 Hnd].
    eapply IH; [done | | | done].
    + intros row key Hin. apply Hrows. apply elem_of_cons; by right.
    + intros key record. destruct (decide (k = key)) as [<-|Hne].
      * rewrite dict_get_set_eq. intros [= <-].
        eapply Hrows; [apply elem_of_cons; by left | done |].
        by apply clean_of_dict_of.
      * rewrite dict_get_set_ne by done. apply H0.
Qed.

(** Rows with other identifiers leave the entry of a key as it is. *)
Lemma loop_other_keys rows d0 d key :
  (∀ row, row ∈ rows → dict_get (PStr "id") row ≠ Some key) →
  for_each read_row rows d0 = Ok d →
  dict_get key d = dict_get key d0.
Proof.
  revert d0. induction rows as [|r rows IH]; simpl; intros d0 Hne Hloop.
  - by injection Hloop as <-.
  - destruct (read_row d0 r) as [d1|e] eqn:Hr; simpl in Hloop; [|done].
    apply read_row_Ok in Hr as (cr & k & Hc & Hid & ->).
    rewrite (IH _ (fun row Hin => Hne row (proj2 (elem_of_cons _ _ _) (or_intror Hin))) Hloop).
    apply dict_get_set_ne. intros ->. apply (Hne r); [apply elem_of_cons; by left | done].
Qed.

Lemma loop_NoDup rows d0 d :
  NoDup (keys d0) → for_each read_row rows d0 = Ok d → NoDup (keys d).
Proof.
  revert d0. induction rows as [|r rows IH]; simpl; intros d0 Hnd Hloop.
  - by injection Hloop as <-.
  - destruct (read_row d0 r) as [d1|e] eqn:Hr; simpl in Hloop; [|done].
    apply read_row_Ok in Hr as (cr & k & Hc & Hid & ->).
    eapply IH; [|done]. by apply NoDup_keys_dict_set.
Qed.

(** The loop succeeds on rows that all have text values and an ["id"]. *)
Lemma loop_succeeds rows d0 :
  Forall (fun row => all_str row ∧ is_Some (dict_get (PStr "id") row)) rows →
  ∃ d, for_each read_row rows d0 = Ok d.
Proof.
  intros Hall. revert d0.
  induction Hall as [|r rows [Hs [key Hid]] _ IH]; simpl; intros d0; [by eexists|].
  destruct (comprehension_all_str _ Hs) as [cr Hc].
  unfold read_row at 1. rewrite Hc, Hid. simpl. apply IH.
Qed.
End Loop.

(** ** What [csv.DictReader] builds *)

Lemma NoDup_keys_row_dict fieldnames row : NoDup (keys (row_dict fieldnames row)).
Proof.
  unfold row_dict. repeat case_match.
  - apply NoDup_keys_dict_set, NoDup_keys_dict_of.
  - apply (NoDup_keys_fold_set PStr (fun _ => PNone)), NoDup_keys_dict_of.
  - apply NoDup_keys_dict_of.
Qed.

Lemma NoDup_keys_DictReader rows :
  Forall (fun row => NoDup (keys row)) (DictReader rows).
Proof.
  destruct rows as [|fieldnames body]; simpl; [constructor|].
  apply Forall_forall. intros row (r & -> & _)%list_elem_of_fmap.
  apply NoDup_keys_row_dict.
Qed.

Section FoldSet.
Context {A K V : Type} `{EqDecision K} (f : A → K) (g : A → V).

Lemma keys_fold_set_elem (l : list A) (d : list (K * V)) k :
  k ∈ keys (fold_left (fun d x => dict_set (f x) (g x) d) l d) ↔
  k ∈ (f <$> l) ∨ k ∈ keys d.
Proof.
  revert d. induction l as [|x l IH]; simpl; intros d.
  - rewrite elem_of_nil. tauto.
  - rewrite IH, keys_dict_set_elem, elem_of_cons. tauto.
Qed.

Lemma Forall_dict_set (Q : V → Prop) k v (d : list (K * V)) :
  Q v → Forall (fun kv => Q kv.2) d → Forall (fun kv => Q kv.2) (dict_set k v d).
Proof.
  intros Hv. induction 1 as [|[k' v'] d Hkv Hd IH]; simpl.
  - by repeat constructor.
  - case_decide; constructor; done.
Qed.

Lemma Forall_fold_set (Q : V → Prop) (l : list A) (d : list (K * V)) :
  Forall (fun x => Q (g x)) l → Forall (fun kv => Q kv.2) d →
  Forall (fun kv => Q kv.2) (fold_left (fun d x => dict_set (f x) (g x) d) l d).
Proof.
  intros Hl. revert d. induction Hl as [|x l Hx Hl IH]; simpl; intros d Hd; [done|].
  apply IH. by apply Forall_dict_set.
Qed.
End FoldSet.

(** A row as long as the header: every field with a text value. *)
Lemma row_dict_full fieldnames row :
  length row = length fieldnames →
  all_str (row_dict fieldnames row)
  ∧ (∀ f, PStr f ∈ keys (row_dict fieldnames row) ↔ f ∈ fieldnames).
Proof.
  intros Hlen. unfold row_dict. rewrite Hlen, Nat.ltb_irrefl. split.
  - apply (Forall_fold_set fst snd (fun v => ∃ s, v = PStr s)); [|constructor].
    apply Forall_forall. intros [k v] Hin%elem_of_zip_r. simpl in *.
    apply list_elem_of_fmap in Hin as (s & -> & _). by exists s.
  - intros f. unfold dict_of. rewrite (keys_fold_set_elem fst snd).
    rewrite fst_zip by (rewrite !length_fmap; lia).
    simpl. rewrite elem_of_nil. rewrite list_elem_of_fmap. split.
    + intros [(f' & [= ->] & Hin)|[]]. done.
    + intros Hin. left. by exists f.
Qed.

(** A row with more or fewer cells than the header has a value that is not
    text: the surplus list, or [None] for the fields left over. *)
Lemma row_dict_ragged fieldnames row :
  length row ≠ length fieldnames → ¬ all_str (row_dict fieldnames row).
Proof.
  intros Hlen Hstr. unfold row_dict in Hstr.
  unfold all_str in Hstr. rewrite Forall_forall in Hstr.
  destruct (length fieldnames <? length row)%nat eqn:Hlt.
  - destruct (Hstr (PNone, PList (drop (length fieldnames) row))) as [s Hs]; [|done].
    apply dict_get_Some_value, dict_get_set_eq.
  - apply Nat.ltb_ge in Hlt.
    assert (length row < length fieldnames)%nat as Hlt' by lia.
    apply Nat.ltb_lt in Hlt' as Hb. rewrite Hb in Hstr.
    destruct (drop (length row) fieldnames) as [|x l] eqn:Hdrop using rev_ind.
    + apply (f_equal length) in Hdrop. rewrite length_drop in Hdrop. simpl in Hdrop. lia.
    + clear IHl. rewrite fold_left_app in Hstr. simpl in Hstr.
      destruct (Hstr (PStr x, PNone)) as [s Hs]; [|done].
      apply dict_get_Some_value, dict_get_set_eq.
Qed.

Lemma comprehension_raises row e :
  comprehension clean_item row = Raise e → exn_class e = "AttributeError".
Proof.
  induction row as [|[k v] row IH]; simpl; [done|].
  unfold clean_item at 1. simpl.
  destruct v; simpl; try (intros [= <-]; done).
  destruct (comprehension clean_item row); simpl; [done|].
  intros [= <-]. by apply IH.
Qed.

Lemma read_row_raises d row e :
  read_row d row = Raise e →
  exn_class e = "AttributeError" ∨ exn_class e = "KeyError".
Proof.
  unfold read_row.
  destruct (comprehension clean_item row) eqn:Hc; simpl.
  - destruct (dict_get _ row); [done|]. intros [= <-]. by right.
  - intros [= <-]. left. by eapply comprehension_raises.
Qed.

Lemma loop_raises rows d0 e :
  for_each read_row rows d0 = Raise e →
  exn_class e = "AttributeError" ∨ exn_class e = "KeyError".
Proof.
  revert d0. induction rows as [|r rows IH]; simpl; intros d0; [done|].
  destruct (read_row d0 r) eqn:Hr; simpl; [apply IH|].
  intros [= <-]. by eapply read_row_raises.
Qed.


Lemma loop_all_str rows d0 d :
  for_each read_row rows d0 = Ok d → Forall all_str rows.
Proof.
  revert d0. induction rows as [|r rows IH]; simpl; intros d0 Hloop; [constructor|].
  destruct (read_row d0 r) as [d1|] eqn:Hr; simpl in Hloop; [|done].
  apply read_row_Ok in Hr as (cr & k & Hc & _).
  constructor; [by apply comprehension_clean in Hc as (_ & _ & ?) | by eapply IH].
Qed.



(** ** The methods *)

(** Symbolic execution of a method body: unfold the monad, then compute,
    using the known lookups and library results. *)
Ltac exec_step :=
  first
    [ progress simpl
    | rewrite lookup_insert_eq
    | match goal with
      | H : _ !! _ = _ |- _ => rewrite H
      | H : _ = Ok _ |- _ => rewrite H
      | H : _ = Raise _ |- _ => rewrite H
      | H : _ = Some _ |- _ => rewrite H
      | H : _ = None |- _ => rewrite H
      end ].

Ltac exec :=
  unfold bind, ret, raise, lift, assert, path_exists, with_open, open, finalize,
    close, lib_write, read_handle, write_handle, lib_call;
  repeat exec_step.

Section ProgramFacts.
Context `{lib : DedupeLib}.

(** [read_data] returns what the loop computes from the rows of the file. *)
Lemma read_data_result (w : world) path c :
  fs w !! path = Some c →
  (read_data path w).1 = read_rows (csv_reader c).
Proof.
  intros Hfile. unfold read_data. exec. done.
Qed.

Lemma read_data_no_file (w : world) path :
  fs w !! path = None →
  read_data path w = (Raise (AssertionError "Input file not found."), w).
Proof.
  intros Hfile. unfold read_data. exec. done.
Qed.

(** [deduplicate]: one call to [match], then the output file is written
    whole, through a handle that is closed again. *)
Lemma deduplicate_result (self : CSVDeduplicator) (w : world) d cs :
  deduper self = Some d →
  match_ d (data self) (1 # 2) = Ok cs →
  (deduplicate self w).1 = Ok tt
  ∧ fs (deduplicate self w).2 !! output_file self = Some (csv_writer (output_rows cs))
  ∧ calls (deduplicate self w).2 = calls w ++ [CallMatch].
Proof.
  intros Hd Hm. unfold deduplicate. exec. done.
Qed.

End ProgramFacts.

(** ** ASCII text *)

Lemma is_ascii_lower_char c : is_ascii_char c = true → is_ascii_char (lower_char c) = true.
Proof. destruct c as [[] [] [] [] [] [] [] []]; done. Qed.

Lemma is_ascii_lower s : is_ascii s = true → is_ascii (lower s) = true.
Proof.
  induction s as [|c s IH]; simpl; [done|].
  intros [Hc Hs]%andb_true_iff. by rewrite is_ascii_lower_char, IH.
Qed.

Lemma is_ascii_lstrip s : is_ascii s = true → is_ascii (lstrip s) = true.
Proof.
  induction s as [|c s IH]; simpl; [done|].
  intros Hcs. pose proof Hcs as [Hc Hs]%andb_true_iff.
  destruct (is_space c); [by apply IH | done].
Qed.

Lemma is_ascii_rstrip s : is_ascii s = true → is_ascii (rstrip s) = true.
Proof.
  induction s as [|c s IH]; simpl; [done|].
  intros [Hc Hs]%andb_true_iff. specialize (IH Hs).
  destruct (rstrip s) as [|c' r].
  - destruct (is_space c); simpl; [done | by rewrite Hc].
  - change (is_ascii_char c && is_ascii (String c' r) = true). by rewrite Hc, IH.
Qed.

Lemma is_ascii_strip s : is_ascii s = true → is_ascii (strip s) = true.
Proof. intros Hs. by apply is_ascii_rstrip, is_ascii_lstrip. Qed.

(** On ASCII text case folding is lower-casing. *)
Lemma casefold_ascii s : is_ascii s = true → casefold s = lower s.
Proof.
  induction s as [|c s IH]; [done|].
  intros [Hc Hs]%andb_true_iff. specialize (IH Hs).
  destruct s as [|c' s']; [done|].
  cbn [casefold lower] in *.
  assert (Hne : (Ascii.N_of_ascii c =? 195)%N = false).
  { unfold is_ascii_char in Hc. apply N.ltb_lt in Hc. apply N.eqb_neq. lia. }
  rewrite Hne. simpl. by rewrite IH.
Qed.

(** The text values of the dictionaries built from an ASCII file are
    ASCII. *)
Lemma row_dict_values_ascii fieldnames row k s :
  forallb is_ascii row = true →
  dict_get k (row_dict fieldnames row) = Some (PStr s) → is_ascii s = true.
Proof.
  intros Hrow Hget.
  assert (Hall : Forall (fun kv : pyval * pyval => ∀ t, kv.2 = PStr t → is_ascii t = true)
                        (row_dict fieldnames row)).
  { assert (Hzip : Forall (fun kv : pyval * pyval => ∀ t, kv.2 = PStr t → is_ascii t = true)
                     (dict_of (zip (PStr <$> fieldnames) (PStr <$> row)))).
    { apply (Forall_fold_set fst snd (fun v => ∀ t, v = PStr t → is_ascii t = true));
        [|constructor].
      apply Forall_forall. intros [k' v] Hin%elem_of_zip_r. simpl in *.
      apply list_elem_of_fmap in Hin as (t' & -> & Hin). intros t [= <-].
      rewrite forallb_forall in Hrow. apply Hrow. by apply list_elem_of_In. }
    unfold row_dict. repeat case_match.
    - apply (Forall_dict_set (fun v => ∀ t, v = PStr t → is_ascii t = true)); [done|].
      exact Hzip.
    - apply (Forall_fold_set PStr (fun _ => PNone)
               (fun v => ∀ t, v = PStr t → is_ascii t = true)); [|exact Hzip].
      apply Forall_forall. done.
    - exact Hzip. }
  apply dict_get_Some_value in Hget. rewrite Forall_forall in Hall.
  by apply (Hall _ Hget).
Qed.

Lemma DictReader_values_ascii rows row k s :
  ascii_rows rows = true →
  row ∈ DictReader rows →
  dict_get k row = Some (PStr s) → is_ascii s = true.
Proof.
  intros Hrows Hrow Hget. destruct rows as [|fieldnames body]; simpl in Hrow.
  { by apply elem_of_nil in Hrow. }
  apply list_elem_of_fmap in Hrow as (r & -> & Hr).
  apply list_elem_of_filter in Hr as [_ Hr].
  eapply row_dict_values_ascii; [|done].
  unfold ascii_rows in Hrows. simpl in Hrows.
  apply andb_true_iff in Hrows as [_ Hbody].
  rewrite forallb_forall in Hbody. apply Hbody. by apply list_elem_of_In.
Qed.

(** ** Loading: [read_data] *)

Section Loading.
Context `{lib : DedupeLib}.

(** C10, as the code has it. Every row of the input file is stored under
    its raw identifier, the text of its [id] cell exactly as the file has
    it, and the keys of the collection are pairwise distinct, so two rows
    whose raw identifiers differ, even only in surrounding white space or
    letter case, have two entries.  The [id] field inside the stored record
    is the identifier stripped and lower-cased by [str.lower]: for an ASCII
    identifier that is its trimmed, case-folded form, and it differs from
    the key whenever trimming or lower-casing changes the identifier. *)
Theorem read_data_keys_raw_id_field_normalized (w : world) path c d :
  fs w !! path = Some c →
  (read_data path w).1 = Ok d →
  NoDup (keys d)
  ∧ ∀ row, row ∈ DictReader (csv_reader c) →
      ∃ raw record,
        dict_get (PStr "id") row = Some (PStr raw)
        ∧ dict_get (PStr raw) d = Some record
        ∧ (is_ascii raw = true →
           dict_get (PStr "id") record = Some (PStr (lower (strip raw)))
           ∧ lower (strip raw) = casefold (strip raw)).
Proof.
  intros Hfile Hread. rewrite (read_data_result _ _ _ Hfile) in Hread.
  unfold read_rows in Hread. split.
  { eapply (loop_NoDup _ []); [apply NoDup_nil_2 | done]. }
  intros row Hrow.
  destruct (loop_presence _ _ _ Hread) as [_ Hpres].
  destruct (Hpres row Hrow) as (raw & Hid & [record Hrec]).
  exists raw, record. split; [done|]. split; [done|]. intros Hascii. split.
  - pose (P := fun (key : pyval) (record : list (pyval * pyval)) =>
                 dict_get (PStr "id") record = cleaned (Some key)).
    assert (HP : P (PStr raw) record); [|exact HP].
    eapply (loop_provenance _ _ _ P);
      [apply NoDup_keys_DictReader | | | exact Hread | exact Hrec].
    + intros row' key _ Hid' record' Hclean. unfold P. by rewrite Hclean, Hid'.
    + intros key record'. done.
  - symmetry. by apply casefold_ascii, is_ascii_strip.
Qed.

End Loading.

Lemma read_data_keys_raw_id_field_normalized_witness :
  let w := ExactMatch.world0
             [("in.csv", ExactMatch.Text [["id"; "name"]; [" A1 "; "x"]; ["a1"; "y"]])] [] in
  ∃ raw record,
    dict_get (PStr "id") [(PStr "id", PStr " A1 "); (PStr "name", PStr "x")]
      = Some (PStr raw)
    ∧ dict_get (PStr raw)
        [(PStr " A1 ", [(PStr "id", PStr "a1"); (PStr "name", PStr "x")]);
         (PStr "a1", [(PStr "id", PStr "a1"); (PStr "name", PStr "y")])] = Some record
    ∧ (is_ascii raw = true →
       dict_get (PStr "id") record = Some (PStr (lower (strip raw)))
       ∧ lower (strip raw) = casefold (strip raw)).
Proof.
  intros w.
  refine (proj2 (read_data_keys_raw_id_field_normalized w "in.csv"
            (ExactMatch.Text [["id"; "name"]; [" A1 "; "x"]; ["a1"; "y"]]) _ _ _) _ _).
  - vm_compute. reflexivity.
  - vm_compute. reflexivity.
  - apply list_elem_of_here.
Defined.

(** C10, counterexample. The identifier is the letter sharp s.  It is
    stored with the [id] field sharp s, what [str.lower] gives, while its
    case-folded form is "ss". *)
Lemma read_data_sharp_s_id_counterexample :
  let rows := [["id"; "name"]; [eszett; "x"]] in
  let w := ExactMatch.world0 [("in.csv", ExactMatch.Text rows)] [] in
  (read_data "in.csv" w).1
    = Ok [(PStr eszett, [(PStr "id", PStr eszett); (PStr "name", PStr "x")])]
  ∧ casefold (strip eszett) = "ss"
  ∧ PStr eszett ≠ PStr (casefold (strip eszett)).
Proof.
  intros rows w. split; [vm_compute; reflexivity|].
  split; [reflexivity|]. vm_compute. discriminate.
Qed.

Section Normalizing.
Context `{lib : DedupeLib}.


End Normalizing.



Section Identifiers.
Context `{lib : DedupeLib}.

(** C4, as the code has it. On a file whose data rows all have one cell
    per header field: when the header has no [id] column, loading raises
    [KeyError] at the first data row, and returns the empty collection when
    there is no data row; when the header has an [id] column, loading
    succeeds, also when several rows carry the same identifier, and the
    record kept under an identifier is the cleaned image of the last row
    that carries it, the earlier ones being overwritten. *)
Theorem read_data_missing_id_duplicate_ids (w : world) path c fieldnames body :
  fs w !! path = Some c →
  csv_reader c = fieldnames :: body →
  Forall (fun row => length row = length fieldnames) (data_rows body) →
  ("id" ∉ fieldnames →
     (data_rows body ≠ [] → (read_data path w).1 = Raise (KeyError (PStr "id")))
     ∧ (data_rows body = [] → (read_data path w).1 = Ok []))
  ∧ ("id" ∈ fieldnames →
     ∃ d, (read_data path w).1 = Ok d
        ∧ ∀ before row after key,
            row_dict fieldnames <$> data_rows body = before ++ row :: after →
            dict_get (PStr "id") row = Some key →
            (∀ row', row' ∈ after → dict_get (PStr "id") row' ≠ Some key) →
            ∃ record, dict_get key d = Some record ∧ clean_of record row).
Proof.
  intros Hfile Hrows Hlen. rewrite (read_data_result _ _ _ Hfile).
  unfold read_rows. rewrite Hrows. simpl. fold (data_rows body). split.
  - intros Hnoid. split.
    + destruct (data_rows body) as [|r rest]; [done|]. intros _. simpl.
      apply Forall_cons in Hlen as [Hr _].
      destruct (row_dict_full _ _ Hr) as [Hstr Hkeys].
      destruct (comprehension_all_str _ Hstr) as [cr Hc].
      unfold read_row. rewrite Hc. simpl.
      destruct (dict_get (PStr "id") (row_dict fieldnames r)) eqn:Hg; [|done].
      apply dict_get_Some_key, Hkeys in Hg. done.
    + by intros ->.
  - intros Hid.
    destruct (loop_succeeds (row_dict fieldnames <$> data_rows body) []) as [d Hd].
    { apply Forall_forall. intros ? (r & -> & Hr)%list_elem_of_fmap.
      rewrite Forall_forall in Hlen.
      destruct (row_dict_full _ _ (Hlen r Hr)) as [Hstr Hkeys]. split; [done|].
      destruct (dict_get (PStr "id") (row_dict fieldnames r)) eqn:Hg; [by eexists|].
      apply dict_get_None in Hg. exfalso. by apply Hg, Hkeys. }
    exists d. split; [done|].
    intros before row after key Hsplit Hkey Hlater.
    rewrite Hsplit, for_each_app in Hd.
    destruct (for_each read_row before []) as [d1|] eqn:H1; simpl in Hd; [|done].
    destruct (read_row d1 row) as [d2|] eqn:H2; simpl in Hd; [|done].
    apply read_row_Ok in H2 as (cr & key' & Hc & Hkey' & ->).
    rewrite Hkey in Hkey'. injection Hkey' as <-.
    exists (dict_of cr). split.
    + rewrite (loop_other_keys _ _ _ key Hlater Hd). apply dict_get_set_eq.
    + apply clean_of_dict_of; [|done].
      assert (Hin : row ∈ row_dict fieldnames <$> data_rows body).
      { rewrite Hsplit. apply elem_of_app. right. apply list_elem_of_here. }
      apply list_elem_of_fmap in Hin as (r & -> & _). apply NoDup_keys_row_dict.
Qed.

End Identifiers.

Lemma read_data_missing_id_duplicate_ids_witness :
  let rows := [["id"; "name"]; ["7"; "Ann"]; ["7"; "Bob"]] in
  let w := ExactMatch.world0 [("in.csv", ExactMatch.Text rows)] [] in
  ∃ d, (read_data "in.csv" w).1 = Ok d
     ∧ ∀ before row after key,
         [[(PStr "id", PStr "7"); (PStr "name", PStr "Ann")];
          [(PStr "id", PStr "7"); (PStr "name", PStr "Bob")]] = before ++ row :: after →
         dict_get (PStr "id") row = Some key →
         (∀ row', row' ∈ after → dict_get (PStr "id") row' ≠ Some key) →
         ∃ record, dict_get key d = Some record ∧ clean_of record row.
Proof.
  intros rows w.
  refine (proj2 (read_data_missing_id_duplicate_ids w "in.csv"
            (ExactMatch.Text rows) ["id"; "name"] [["7"; "Ann"]; ["7"; "Bob"]] _ _ _) _).
  - vm_compute. reflexivity.
  - reflexivity.
  - repeat constructor.
  - apply list_elem_of_here.
Defined.

(** C4, counterexample. Two rows carry the identifier 7: loading succeeds
    and the first row is overwritten by the second.  A header without [id]
    column: the exception is a [KeyError]. *)
Lemma read_data_duplicate_id_counterexample :
  let w := ExactMatch.world0
    [("dup.csv", ExactMatch.Text [["id"; "name"]; ["7"; "Ann"]; ["7"; "Bob"]]);
     ("noid.csv", ExactMatch.Text [["name"]; ["Ann"]])] [] in
  (read_data "dup.csv" w).1
    = Ok [(PStr "7", [(PStr "id", PStr "7"); (PStr "name", PStr "bob")])]
  ∧ (read_data "noid.csv" w).1 = Raise (KeyError (PStr "id"))
  ∧ ¬ (∃ e, (read_data "dup.csv" w).1 = Raise e ∧ exn_class e = "DataFormatError")
  ∧ ¬ (∃ e, (read_data "noid.csv" w).1 = Raise e ∧ exn_class e = "DataFormatError").
Proof.
  intros w.
  assert (H1 : (read_data "dup.csv" w).1
    = Ok [(PStr "7", [(PStr "id", PStr "7"); (PStr "name", PStr "bob")])])
    by (vm_compute; reflexivity).
  assert (H2 : (read_data "noid.csv" w).1 = Raise (KeyError (PStr "id")))
    by (vm_compute; reflexivity).
  split; [exact H1|]. split; [exact H2|]. split.
  - intros (e & He & _). rewrite H1 in He. discriminate.
  - intros (e & He & Hcls). rewrite H2 in He. injection He as <-. discriminate.
Qed.

Section Scenario.
Context `{lib : DedupeLib}.

(** C5, as the code has it. For two records with identifiers 1 and 2 and
    names [n1] and [n2], loading stores the names trimmed at both ends and
    lower-cased, white space inside a name being kept: the names of the
    scenario, "john smith" and "John  Smith ", are stored as "john smith"
    and "john  smith".  The stored names are identical exactly when
    trimming and lower-casing make them so.  When the matcher returns the
    two records as one cluster, the output holds one row for each, with
    cluster number 0 and the score the matcher gave. *)
Theorem read_data_two_names (w : world) path c n1 n2 :
  fs w !! path = Some c →
  csv_reader c = [["id"; "name"]; ["1"; n1]; ["2"; n2]] →
  (read_data path w).1
    = Ok [(PStr "1", [(PStr "id", PStr "1"); (PStr "name", PStr (lower (strip n1)))]);
          (PStr "2", [(PStr "id", PStr "2"); (PStr "name", PStr (lower (strip n2)))])]
  ∧ lower (strip "john smith") = "john smith"
  ∧ lower (strip "John  Smith ") = "john  smith"
  ∧ ∀ (self : CSVDeduplicator) (w' : world) d s1 s2,
      deduper self = Some d →
      match_ d (data self) (1 # 2) = Ok [([PStr "1"; PStr "2"], [s1; s2])] →
      fs (deduplicate self w').2 !! output_file self
        = Some (csv_writer [header_row;
                            [CObj (PStr "1"); CInt 0; CFloat s1];
                            [CObj (PStr "2"); CInt 0; CFloat s2]]).
Proof.
  intros Hfile Hrows. rewrite (read_data_result _ _ _ Hfile), Hrows.
  split; [reflexivity|]. split; [reflexivity|]. split; [reflexivity|].
  intros self w' d s1 s2 Hd Hm.
  by destruct (deduplicate_result self w' d _ Hd Hm) as (_ & -> & _).
Qed.

End Scenario.

Lemma read_data_two_names_witness :
  let rows := [["id"; "name"]; ["1"; "john smith"]; ["2"; " John Smith "]] in
  let w := ExactMatch.world0 [("in.csv", ExactMatch.Text rows)] [] in
  (read_data "in.csv" w).1
    = Ok [(PStr "1", [(PStr "id", PStr "1"); (PStr "name", PStr "john smith")]);
          (PStr "2", [(PStr "id", PStr "2"); (PStr "name", PStr "john smith")])].
Proof.
  intros rows w.
  refine (proj1 (read_data_two_names w "in.csv" (ExactMatch.Text rows)
                   "john smith" " John Smith " _ _)).
  - vm_compute. reflexivity.
  - reflexivity.
Defined.

(** C5, counterexample. The names of the scenario are stored as two
    different strings, and the classifier that links records with equal
    stored names leaves both records out of every cluster: the output of the
    run is the header alone. *)
Lemma john_smith_counterexample :
  let rows := [["id"; "name"]; ["1"; "john smith"]; ["2"; "John  Smith "]] in
  let w := ExactMatch.world0
             [("in.csv", ExactMatch.Text rows); ("model", ExactMatch.Model ["name"])] [] in
  (read_data "in.csv" w).1
    = Ok [(PStr "1", [(PStr "id", PStr "1"); (PStr "name", PStr "john smith")]);
          (PStr "2", [(PStr "id", PStr "2"); (PStr "name", PStr "john  smith")])]
  ∧ PStr "john smith" ≠ PStr "john  smith"
  ∧ (main "in.csv" "out.csv" "model" "labels" ["name"] w).1 = Ok tt
  ∧ fs (main "in.csv" "out.csv" "model" "labels" ["name"] w).2 !! "out.csv"
    = Some (ExactMatch.Table [header_row]).
Proof.
  intros rows w. split; [vm_compute; reflexivity|].
  split; [discriminate|]. split; vm_compute; reflexivity.
Qed.

(** ** Writing the result: [deduplicate] *)

Lemma elem_of_concat {A} (x : A) (ls : list (list A)) :
  x ∈ concat ls ↔ ∃ l, l ∈ ls ∧ x ∈ l.
Proof.
  induction ls as [|l ls IH]; simpl.
  - split; [by intros ?%elem_of_nil | by intros (? & ?%elem_of_nil & _)].
  - rewrite elem_of_app, IH. split.
    + intros [Hx|(l' & Hl' & Hx)].
      * exists l. split; [apply list_elem_of_here | done].
      * exists l'. split; [by apply list_elem_of_further | done].
    + intros (l' & [->|Hl']%elem_of_cons & Hx); [by left|].
      right. by exists l'.
Qed.

(** Each written row is [record_id, cluster_id, score], where the record
    and the score stand at the same position of cluster [cluster_id]. *)
Lemma output_row_inv (cs : list (list pyval * list Q)) row :
  row ∈ concat (imap cluster_rows cs) →
  ∃ cluster_id records scores i record_id score,
    cs !! cluster_id = Some (records, scores)
    ∧ records !! i = Some record_id ∧ scores !! i = Some score
    ∧ row = [CObj record_id; CInt cluster_id; CFloat score].
Proof.
  intros (l & Hl & Hrow)%elem_of_concat.
  apply elem_of_lookup_imap in Hl as (cid & [records scores] & -> & Hc).
  unfold cluster_rows in Hrow. simpl in Hrow.
  apply list_elem_of_fmap in Hrow as ([rid sc] & -> & Hin).
  apply list_elem_of_lookup in Hin as [i Hi].
  apply lookup_zip_with_Some in Hi as (x & y & Heq & Hx & Hy).
  injection Heq as -> ->.
  by exists cid, records, scores, i, x, y.
Qed.



Section Emitter.
Context `{lib : DedupeLib}.


(** C9, as the code has it. The first row written is the header
    [id, Cluster ID, confidence_score]; every other row has three cells, a
    record of a cluster the matcher returned, the position of that cluster
    and the score the matcher gave at the record's position.  So every
    written score lies in [0,1] when the matcher's scores do. *)
Theorem deduplicate_header_and_scores (self : CSVDeduplicator) (w : world) d cs :
  deduper self = Some d →
  match_ d (data self) (1 # 2) = Ok cs →
  ∃ rows,
    fs (deduplicate self w).2 !! output_file self
      = Some (csv_writer
                ([CObj (PStr "id"); CObj (PStr "Cluster ID"); CObj (PStr "confidence_score")]
                 :: rows))
    ∧ (∀ row, row ∈ rows →
         ∃ cluster_id records scores i record_id score,
           cs !! cluster_id = Some (records, scores)
           ∧ records !! i = Some record_id ∧ scores !! i = Some score
           ∧ row = [CObj record_id; CInt cluster_id; CFloat score])
    ∧ (Forall (fun c => Forall (fun q => (0 <= q)%Q ∧ (q <= 1)%Q) c.2) cs →
       ∀ row, row ∈ rows → ∃ q, score_of row = Some q ∧ (0 <= q)%Q ∧ (q <= 1)%Q).
Proof.
  intros Hd Hm.
  destruct (deduplicate_result self w d cs Hd Hm) as (_ & Hfs & _).
  exists (concat (imap cluster_rows cs)). split; [done|]. split.
  - apply output_row_inv.
  - intros Hrange row Hrow.
    apply output_row_inv in Hrow
      as (cid & records & scores & i & rid & q & Hc & _ & Hq & ->).
    exists q. split; [done|].
    rewrite Forall_forall in Hrange.
    apply list_elem_of_lookup_2 in Hc. apply Hrange in Hc. simpl in Hc.
    rewrite Forall_forall in Hc. apply Hc. by eapply list_elem_of_lookup_2.
Qed.

End Emitter.



Lemma deduplicate_header_and_scores_witness :
  let data := [(PStr "1", [(PStr "id", PStr "1"); (PStr "name", PStr "ann")]);
               (PStr "2", [(PStr "id", PStr "2"); (PStr "name", PStr "ann")])] in
  let self := Self "in.csv" "out.csv" "model" "labels" ["name"]
                   (Some (ExactMatch.Deduper_ ["name"] 0)) data in
  let w := ExactMatch.world0 [] [] in
  let cs := [([PStr "1"; PStr "2"], [1%Q; 1%Q])] in
  ∃ rows,
    fs (deduplicate self w).2 !! "out.csv"
      = Some (ExactMatch.Table
                ([CObj (PStr "id"); CObj (PStr "Cluster ID"); CObj (PStr "confidence_score")]
                 :: rows))
    ∧ (∀ row, row ∈ rows →
         ∃ cluster_id records scores i record_id score,
           cs !! cluster_id = Some (records, scores)
           ∧ records !! i = Some record_id ∧ scores !! i = Some score
           ∧ row = [CObj record_id; CInt cluster_id; CFloat score])
    ∧ (Forall (fun c => Forall (fun q => (0 <= q)%Q ∧ (q <= 1)%Q) c.2) cs →
       ∀ row, row ∈ rows → ∃ q, score_of row = Some q ∧ (0 <= q)%Q ∧ (q <= 1)%Q).
Proof.
  intros data self w cs.
  refine (deduplicate_header_and_scores self w (ExactMatch.Deduper_ ["name"] 0) cs _ _).
  - reflexivity.
  - vm_compute. reflexivity.
Defined.

(** C9, counterexample. The second column of the header written is named
    [Cluster ID], not [cluster_id]. *)
Lemma deduplicate_header_counterexample :
  head (output_rows [([PStr "1"; PStr "2"], [1%Q; 1%Q])])
    = Some [CObj (PStr "id"); CObj (PStr "Cluster ID"); CObj (PStr "confidence_score")]
  ∧ head (output_rows [([PStr "1"; PStr "2"], [1%Q; 1%Q])])
    ≠ Some [CObj (PStr "id"); CObj (PStr "cluster_id"); CObj (PStr "confidence_score")].
Proof. split; [reflexivity | discriminate]. Qed.

(** ** The field schema: [define_fields] *)

Lemma append_definitions_map fields :
  append_definitions fields = (fun f => String_ f true) <$> fields.
Proof.
  unfold append_definitions.
  assert (H : ∀ acc, fold_left (fun defs f => defs ++ [String_ f true]) fields acc
                     = acc ++ ((fun f => String_ f true) <$> fields)); [|apply H].
  induction fields as [|f fields IH]; simpl; intros acc.
  - by rewrite app_nil_r.
  - by rewrite IH, <- app_assoc.
Qed.

Section Schema.
Context `{lib : DedupeLib}.

(** C7, as the code has it. Defining the field schema never fails and
    does not look at the loaded records: whatever [self.data] holds, it
    returns one [String] definition with [has_missing=True] for each
    declared field name, in the declared order, and leaves the environment
    as it was. *)
Theorem define_fields_one_definition_per_name (self : CSVDeduplicator) (w : world) :
  define_fields self w = (Ok ((fun f => String_ f true) <$> fields self), w)
  ∧ ∀ data', define_fields
               (Self (input_file self) (output_file self) (settings_file self)
                     (training_file self) (fields self) (deduper self) data') w
             = define_fields self w.
Proof.
  unfold define_fields, ret. simpl. by rewrite append_definitions_map.
Qed.

End Schema.

(** C7, counterexample. The declared field [email] is carried by no
    loaded record, and defining the schema returns its definition. *)
Lemma define_fields_unknown_field_counterexample :
  let data := [(PStr "1", [(PStr "id", PStr "1"); (PStr "name", PStr "ann")])] in
  let self := Self "in.csv" "out.csv" "model" "labels" ["email"] None data in
  let w := ExactMatch.world0 [] [] in
  Forall (fun kv => dict_get (PStr "email") kv.2 = None) data
  ∧ (define_fields self w).1 = Ok [String_ "email" true]
  ∧ ¬ (∃ e, (define_fields self w).1 = Raise e ∧ exn_class e = "SchemaError").
Proof.
  intros data self w. split; [by repeat constructor|]. split; [reflexivity|].
  intros (e & He & _). discriminate.
Qed.

(** ** Setting up the deduper: [setup_deduper] *)

Section Setup.
Context `{lib : DedupeLib}.

(** With a settings file in place the method is one [open], one read and
    one call of [StaticDedupe]; the file object is finalised when the call
    returns, and not when it raises. *)
Lemma setup_deduper_load (self : CSVDeduplicator) (w : world) c :
  fs w !! settings_file self = Some c →
  setup_deduper self w =
    (rbind (StaticDedupe c) (fun d => Ok (set_deduper self d)),
     World (fs w)
           (match StaticDedupe c with
            | Ok _ => delete (next_fd w) (<[next_fd w := settings_file self]> (handles w))
            | Raise _ => <[next_fd w := settings_file self]> (handles w)
            end)
           (S (next_fd w)) (calls w ++ [CallStaticDedupe]) (stdin w)).
Proof.
  intros Hfile. unfold setup_deduper. exec.
  destruct (StaticDedupe c); done.
Qed.

Lemma deduplicate_calls (self : CSVDeduplicator) (w : world) d :
  deduper self = Some d →
  calls (deduplicate self w).2 = calls w ++ [CallMatch].
Proof.
  intros Hd. unfold deduplicate. exec.
  destruct (match_ d (data self) (1 # 2)); exec; done.
Qed.

(** C2. When the settings file exists and holds a classifier that the
    library loads, whether or not its fields are those declared for the
    run, [setup_deduper] returns the object with that classifier as its
    [deduper] and every other attribute as it was; its only library call is
    [StaticDedupe], no reply is read from the console and no file is
    written: neither the labelling loop nor training runs. *)
Theorem setup_deduper_saved_classifier_skips_labelling
    (self : CSVDeduplicator) (w : world) c d :
  fs w !! settings_file self = Some c →
  StaticDedupe c = Ok d →
  (∃ self', (setup_deduper self w).1 = Ok self'
          ∧ deduper self' = Some d
          ∧ input_file self' = input_file self
          ∧ output_file self' = output_file self
          ∧ settings_file self' = settings_file self
          ∧ training_file self' = training_file self
          ∧ fields self' = fields self
          ∧ data self' = data self)
  ∧ calls (setup_deduper self w).2 = calls w ++ [CallStaticDedupe]
  ∧ (CallConsoleLabel ∈ calls (setup_deduper self w).2 → CallConsoleLabel ∈ calls w)
  ∧ stdin (setup_deduper self w).2 = stdin w
  ∧ fs (setup_deduper self w).2 = fs w.
Proof.
  intros Hfile Hload. rewrite (setup_deduper_load _ _ _ Hfile), Hload. simpl.
  split; [by exists (set_deduper self d)|].
  split; [done|]. split; [|done].
  intros [Hin|Hin]%elem_of_app; [done|].
  by apply list_elem_of_singleton in Hin.
Qed.

(** C3, as the code has it. When the settings file exists and holds a
    classifier whose trained fields differ from the fields declared for the
    run, [setup_deduper] does not compare the two: it succeeds and returns
    the object with the saved classifier, raising no exception.  It does
    not fall back to retraining either: the only library call is
    [StaticDedupe], the console is not read and no file is written.  The
    run then goes on to clustering with that classifier. *)
Theorem setup_deduper_schema_mismatch_not_checked
    (self : CSVDeduplicator) (w : world) c d :
  fs w !! settings_file self = Some c →
  StaticDedupe c = Ok d →
  trained_fields d ≠ fields self →
  (∃ self', (setup_deduper self w).1 = Ok self'
          ∧ deduper self' = Some d
          ∧ trained_fields d ≠ fields self')
  ∧ calls (setup_deduper self w).2 = calls w ++ [CallStaticDedupe]
  ∧ stdin (setup_deduper self w).2 = stdin w
  ∧ fs (setup_deduper self w).2 = fs w
  ∧ calls (run self w).2 = calls w ++ [CallStaticDedupe; CallMatch].
Proof.
  intros Hfile Hload Hne.
  pose proof (setup_deduper_load _ _ _ Hfile) as Hsetup.
  rewrite Hload in Hsetup. simpl in Hsetup.
  split; [|split; [|split; [|split]]]; try (by rewrite Hsetup).
  - exists (set_deduper self d). by rewrite Hsetup.
  - unfold run, bind. rewrite Hsetup.
    rewrite (deduplicate_calls _ _ d) by done. simpl. by rewrite <- app_assoc.
Qed.

(** C8, the load path. The settings file is opened outside any [with]
    block, so nothing in the method closes its handle.  When [StaticDedupe]
    raises, [setup_deduper] and [run] end by that exception with the handle
    still open.  When [StaticDedupe] returns, the handle is closed only by
    the finalisation of the file object, which nothing refers to any
    more. *)
Theorem setup_deduper_failed_load_leaves_handle_open
    (self : CSVDeduplicator) (w : world) c :
  fs w !! settings_file self = Some c →
  (∀ e, StaticDedupe c = Raise e →
     (setup_deduper self w).1 = Raise e
     ∧ handles (setup_deduper self w).2 = <[next_fd w := settings_file self]> (handles w)
     ∧ (run self w).1 = Raise e
     ∧ handles (run self w).2 !! next_fd w = Some (settings_file self))
  ∧ (∀ d, StaticDedupe c = Ok d → fresh_handles w →
     handles (setup_deduper self w).2 = handles w).
Proof.
  intros Hfile. pose proof (setup_deduper_load _ _ _ Hfile) as Hsetup. split.
  - intros e He. rewrite He in Hsetup. simpl in Hsetup.
    unfold run, bind. rewrite Hsetup. simpl.
    split; [done|]. split; [done|]. split; [done|]. apply lookup_insert_eq.
  - intros d Hd Hfresh. rewrite Hsetup, Hd. simpl.
    apply delete_insert_id, Hfresh. lia.
Qed.

(** The save path, for comparison: both [with] blocks give their handle
    back, also when the library raises while writing. *)
Lemma save_settings_and_training_closes (self : CSVDeduplicator) (w : world) d :
  fresh_handles w →
  handles (save_settings_and_training self d w).2 = handles w.
Proof.
  intros Hfresh. unfold save_settings_and_training. exec.
  pose proof (Hfresh (next_fd w) (le_n _)) as H0.
  pose proof (Hfresh (S (next_fd w)) (le_S _ _ (le_n _))) as H1.
  destruct (write_training d); exec; [|by rewrite delete_insert_id].
  destruct (write_settings d); exec;
    rewrite (delete_insert_id (handles w)) by done; by rewrite delete_insert_id.
Qed.

Lemma read_data_closes (w : world) path :
  fresh_handles w → handles (read_data path w).2 = handles w.
Proof.
  intros Hfresh. pose proof (Hfresh (next_fd w) (le_n _)) as H0.
  unfold read_data. exec. destruct (fs w !! path) eqn:Hfile; exec; [|done].
  by rewrite delete_insert_id.
Qed.

End Setup.

Lemma setup_deduper_saved_classifier_skips_labelling_witness :
  let self := Self "in.csv" "out.csv" "model" "labels" ["name"] None [] in
  let w := ExactMatch.world0 [("model", ExactMatch.Model ["name"])]
                             [ExactMatch.Yes; ExactMatch.Finished] in
  let d := ExactMatch.Deduper_ ["name"] 0 in
  (∃ self', (setup_deduper self w).1 = Ok self'
          ∧ deduper self' = Some d
          ∧ input_file self' = input_file self
          ∧ output_file self' = output_file self
          ∧ settings_file self' = settings_file self
          ∧ training_file self' = training_file self
          ∧ fields self' = fields self
          ∧ data self' = data self)
  ∧ calls (setup_deduper self w).2 = calls w ++ [CallStaticDedupe]
  ∧ (CallConsoleLabel ∈ calls (setup_deduper self w).2 → CallConsoleLabel ∈ calls w)
  ∧ stdin (setup_deduper self w).2 = stdin w
  ∧ fs (setup_deduper self w).2 = fs w.
Proof.
  intros self w d.
  refine (setup_deduper_saved_classifier_skips_labelling self w
            (ExactMatch.Model ["name"]) d _ _).
  - vm_compute. reflexivity.
  - reflexivity.
Defined.

Lemma setup_deduper_schema_mismatch_not_checked_witness :
  let self := Self "in.csv" "out.csv" "model" "labels" ["email"] None [] in
  let w := ExactMatch.world0 [("model", ExactMatch.Model ["name"])] [] in
  let d := ExactMatch.Deduper_ ["name"] 0 in
  (∃ self', (setup_deduper self w).1 = Ok self'
          ∧ deduper self' = Some d
          ∧ trained_fields d ≠ fields self')
  ∧ calls (setup_deduper self w).2 = calls w ++ [CallStaticDedupe]
  ∧ stdin (setup_deduper self w).2 = stdin w
  ∧ fs (setup_deduper self w).2 = fs w
  ∧ calls (run self w).2 = calls w ++ [CallStaticDedupe; CallMatch].
Proof.
  intros self w d.
  refine (setup_deduper_schema_mismatch_not_checked self w
            (ExactMatch.Model ["name"]) d _ _ _).
  - vm_compute. reflexivity.
  - reflexivity.
  - discriminate.
Defined.

(** C3, counterexample. The saved classifier was trained on [name], the
    run declares [email]: setting up succeeds with the saved classifier, and
    no [ModelCompatibilityError] is raised. *)
Lemma setup_deduper_schema_mismatch_counterexample :
  let self := Self "in.csv" "out.csv" "model" "labels" ["email"] None [] in
  let w := ExactMatch.world0 [("model", ExactMatch.Model ["name"])] [] in
  let d := ExactMatch.Deduper_ ["name"] 0 in
  ExactMatch.load (ExactMatch.Model ["name"]) = Ok d
  ∧ trained_fields d ≠ fields self
  ∧ (setup_deduper self w).1 = Ok (set_deduper self d)
  ∧ ¬ (∃ e, (setup_deduper self w).1 = Raise e
          ∧ exn_class e = "ModelCompatibilityError").
Proof.
  intros self w d. split; [reflexivity|]. split; [discriminate|].
  split; [vm_compute; reflexivity|].
  intros (e & He & _). vm_compute in He. discriminate.
Qed.

Lemma setup_deduper_failed_load_leaves_handle_open_witness :
  let self := Self "in.csv" "out.csv" "model" "labels" ["name"] None [] in
  let w := ExactMatch.world0 [("model", ExactMatch.Empty)] [] in
  let e := LibraryError "SettingsFileLoadError" "cannot load settings" in
  (setup_deduper self w).1 = Raise e
  ∧ handles (setup_deduper self w).2 = <[3 := "model"]> ∅
  ∧ (run self w).1 = Raise e
  ∧ handles (run self w).2 !! 3 = Some "model".
Proof.
  intros self w e.
  refine (proj1 (setup_deduper_failed_load_leaves_handle_open self w ExactMatch.Empty _) e _).
  - vm_compute. reflexivity.
  - reflexivity.
Defined.

(** A run without settings file, for comparison: the classifier is built
    by labelling and training, the two artifacts are written and every
    handle is closed again. *)
Example fresh_run_trains_and_closes :
  let rows := [["id"; "name"]; ["1"; "ann"]; ["2"; "Ann "]] in
  let w := ExactMatch.world0 [("in.csv", ExactMatch.Text rows)]
                             [ExactMatch.Yes; ExactMatch.Finished] in
  let r := main "in.csv" "out.csv" "model" "labels" ["name"] w in
  r.1 = Ok tt
  ∧ calls r.2 = [CallDedupe; CallPrepareTraining; CallConsoleLabel; CallTrain;
                CallWriteTraining; CallWriteSettings; CallMatch]
  ∧ stdin r.2 = []
  ∧ fs r.2 !! "model" = Some (ExactMatch.Model ["name"])
  ∧ fs r.2 !! "labels" = Some (ExactMatch.Labels 1)
  ∧ handles r.2 = ∅
  ∧ fs r.2 !! "out.csv"
    = Some (ExactMatch.Table
              [header_row;
               [CObj (PStr "1"); CInt 0; CFloat 1];
               [CObj (PStr "2"); CInt 0; CFloat 1]]).
Proof. repeat split; vm_compute; reflexivity. Qed.


(** * Further properties of the program *)

(** ** Normalized text *)

Lemma is_space_lower_char c : is_space (lower_char c) = is_space c.
Proof. destruct c as [[] [] [] [] [] [] [] []]; reflexivity. Qed.

Lemma lower_char_idemp c : lower_char (lower_char c) = lower_char c.
Proof. destruct c as [[] [] [] [] [] [] [] []]; reflexivity. Qed.

Lemma lower_idemp s : lower (lower s) = lower s.
Proof. induction s as [|c s IH]; simpl; [done|]. by rewrite lower_char_idemp, IH. Qed.

Lemma lstrip_lower s : lstrip (lower s) = lower (lstrip s).
Proof.
  induction s as [|c s IH]; simpl; [done|].
  rewrite is_space_lower_char. by destruct (is_space c).
Qed.

Lemma rstrip_lower s : rstrip (lower s) = lower (rstrip s).
Proof.
  induction s as [|c s IH]; simpl; [done|].
  rewrite IH, is_space_lower_char.
  destruct (rstrip s); simpl; [|done]. by destruct (is_space c).
Qed.

Lemma strip_lower_comm s : strip (lower s) = lower (strip s).
Proof. unfold strip. by rewrite lstrip_lower, rstrip_lower. Qed.

Lemma rstrip_idemp s : rstrip (rstrip s) = rstrip s.
Proof.
  induction s as [|c s IH]; simpl; [done|].
  destruct (rstrip s) as [|c' r] eqn:Hr.
  - destruct (is_space c) eqn:Hc; simpl; [done|]. by rewrite Hc.
  - change (rstrip (String c (String c' r)) = String c (String c' r)).
    cbn [rstrip] in IH |- *. by rewrite IH.
Qed.

Lemma no_leading_space_lstrip s : no_leading_space (lstrip s).
Proof.
  induction s as [|c s IH]; simpl; [done|].
  destruct (is_space c) eqn:Hc; [done | by simpl].
Qed.

Lemma lstrip_no_leading_space s : no_leading_space s → lstrip s = s.
Proof. destruct s as [|c s]; simpl; [done|]. by intros ->. Qed.

Lemma no_leading_space_rstrip s : no_leading_space s → no_leading_space (rstrip s).
Proof.
  destruct s as [|c s]; simpl; [done|]. intros Hc.
  destruct (rstrip s); simpl; [by rewrite Hc | done].
Qed.

Lemma strip_idemp s : strip (strip s) = strip s.
Proof.
  unfold strip.
  rewrite (lstrip_no_leading_space (rstrip (lstrip s))).
  - apply rstrip_idemp.
  - apply no_leading_space_rstrip, no_leading_space_lstrip.
Qed.

Lemma normalized_fixed s :
  strip (lower (strip s)) = lower (strip s)
  ∧ lower (lower (strip s)) = lower (strip s).
Proof. split; [by rewrite strip_lower_comm, strip_idemp | apply lower_idemp]. Qed.

(** ** More on loading *)

Section LoopMore.
Implicit Types (rows : list (list (pyval * pyval)))
               (d : list (pyval * list (pyval * pyval))).

Lemma loop_keys rows d0 d k :
  for_each read_row rows d0 = Ok d →
  k ∈ keys d ↔ k ∈ keys d0 ∨ ∃ row, row ∈ rows ∧ dict_get (PStr "id") row = Some k.
Proof.
  revert d0. induction rows as [|r rows IH]; simpl; intros d0 Hloop.
  - injection Hloop as <-. split; [by left|].
    intros [?|(row & ?%elem_of_nil & _)]; done.
  - destruct (read_row d0 r) as [d1|e] eqn:Hr; simpl in Hloop; [|done].
    apply read_row_Ok in Hr as (cr & key & Hc & Hid & ->).
    rewrite (IH _ Hloop), keys_dict_set_elem. split.
    + intros [[->|Hk]|(row & Hin & Hrow)].
      * right. exists r. split; [apply list_elem_of_here | done].
      * by left.
      * right. exists row. split; [by apply list_elem_of_further | done].
    + intros [Hk|(row & [->|Hin]%elem_of_cons & Hrow)].
      * left. by right.
      * left. left. congruence.
      * right. by exists row.
Qed.

Lemma length_dict_set {K V} `{EqDecision K} (k : K) (v : V) (l : list (K * V)) :
  (length (dict_set k v l) ≤ S (length l))%nat.
Proof.
  induction l as [|[k' v'] l IH]; simpl; [lia|].
  case_decide; simpl; lia.
Qed.

Lemma loop_length rows d0 d :
  for_each read_row rows d0 = Ok d → (length d ≤ length d0 + length rows)%nat.
Proof.
  revert d0. induction rows as [|r rows IH]; simpl; intros d0 Hloop.
  - injection Hloop as <-. lia.
  - destruct (read_row d0 r) as [d1|e] eqn:Hr; simpl in Hloop; [|done].
    apply read_row_Ok in Hr as (cr & key & Hc & Hid & ->).
    apply IH in Hloop. pose proof (length_dict_set key (dict_of cr) d0). lia.
Qed.

(** With pairwise distinct identifiers the records are stored in file
    order. *)
Lemma loop_keys_in_order rows d0 d :
  for_each read_row rows d0 = Ok d →
  NoDup (keys d0 ++ row_ids rows) →
  keys d = keys d0 ++ row_ids rows.
Proof.
  revert d0. induction rows as [|r rows IH]; simpl; intros d0 Hloop Hnd.
  - injection Hloop as <-. by rewrite app_nil_r.
  - destruct (read_row d0 r) as [d1|e] eqn:Hr; simpl in Hloop; [|done].
    apply read_row_Ok in Hr as (cr & key & Hc & Hid & ->).
    unfold row_ids in *. simpl in *. rewrite Hid in *. simpl in *.
    assert (Hfresh : key ∉ keys d0).
    { apply NoDup_app in Hnd as (_ & Hdisj & _). intros Hin.
      apply (Hdisj _ Hin). apply list_elem_of_here. }
    rewrite dict_set_fresh in Hloop by done.
    rewrite (IH _ Hloop); unfold keys; rewrite fmap_app; simpl;
      rewrite <- app_assoc; done.
Qed.

End LoopMore.

Lemma loop_row_ids_length (rows : list (list (pyval * pyval))) d0 d :
  for_each read_row rows d0 = Ok d → length (row_ids rows) = length rows.
Proof.
  revert d0. induction rows as [|r rows IH]; simpl; intros d0 Hloop; [done|].
  destruct (read_row d0 r) as [d1|e] eqn:Hr; simpl in Hloop; [|done].
  apply read_row_Ok in Hr as (cr & key & Hc & Hid & ->).
  unfold row_ids in *. simpl. rewrite Hid. simpl. f_equal. by eapply IH.
Qed.

(** A row as long as the header has the header's fields as keys, and no
    other key. *)
Lemma row_dict_full_keys fieldnames row k :
  length row = length fieldnames →
  k ∈ keys (row_dict fieldnames row) ↔ ∃ f, f ∈ fieldnames ∧ k = PStr f.
Proof.
  intros Hlen. unfold row_dict. rewrite Hlen, Nat.ltb_irrefl.
  unfold dict_of. rewrite (keys_fold_set_elem fst snd).
  rewrite fst_zip by (rewrite !length_fmap; lia).
  simpl. rewrite elem_of_nil, list_elem_of_fmap. split.
  - intros [(f & -> & Hf)|[]]. by exists f.
  - intros (f & Hf & ->). left. by exists f.
Qed.

Section LoadingMore.
Context `{lib : DedupeLib}.

(** X1. When the input file does not exist, the program stops in the
    constructor with [AssertionError "Input file not found."]: nothing is
    opened, no library call is made and no file is touched. *)
Theorem main_missing_input_fails_first (w : world)
    input_file output_file settings_file training_file fields :
  fs w !! input_file = None →
  main input_file output_file settings_file training_file fields w
    = (Raise (AssertionError "Input file not found."), w).
Proof.
  intros Hfile. unfold main, init, bind.
  by rewrite (read_data_no_file _ _ Hfile).
Qed.

(** X2. Loading only reads: whether it returns the collection or raises,
    [read_data] leaves the files, the library log and the console as they
    were, and the handle it opened is closed again. *)
Theorem read_data_only_reads (w : world) path :
  fresh_handles w →
  fs (read_data path w).2 = fs w
  ∧ handles (read_data path w).2 = handles w
  ∧ calls (read_data path w).2 = calls w
  ∧ stdin (read_data path w).2 = stdin w.
Proof.
  intros Hfresh. pose proof (Hfresh (next_fd w) (le_n _)) as H0.
  unfold read_data. exec. destruct (fs w !! path) eqn:Hfile; exec; [|done].
  by rewrite delete_insert_id.
Qed.

(** X3. The keys of the loaded collection are exactly the identifiers of
    the data rows: every key is the [id] cell of some row and every row's
    [id] cell is a key. *)
Theorem read_data_keys_are_row_ids (w : world) path c d k :
  fs w !! path = Some c →
  (read_data path w).1 = Ok d →
  k ∈ keys d ↔
  ∃ row, row ∈ DictReader (csv_reader c) ∧ dict_get (PStr "id") row = Some k.
Proof.
  intros Hfile Hread. rewrite (read_data_result _ _ _ Hfile) in Hread.
  rewrite (loop_keys _ _ _ k Hread). simpl. rewrite elem_of_nil. tauto.
Qed.

(** X4. The collection never has more records than the file has data
    rows, and when the identifiers of the rows are pairwise distinct it has
    one record per row, stored in file order. *)
Theorem read_data_distinct_ids_file_order (w : world) path c d :
  fs w !! path = Some c →
  (read_data path w).1 = Ok d →
  (length d ≤ length (DictReader (csv_reader c)))%nat
  ∧ (NoDup (row_ids (DictReader (csv_reader c))) →
     keys d = row_ids (DictReader (csv_reader c))
     ∧ length d = length (DictReader (csv_reader c))).
Proof.
  intros Hfile Hread. rewrite (read_data_result _ _ _ Hfile) in Hread.
  split; [exact (loop_length _ _ _ Hread)|].
  intros Hnd. pose proof (loop_keys_in_order _ [] _ Hread Hnd) as Hkeys.
  simpl in Hkeys. split; [done|].
  rewrite <- (loop_row_ids_length _ _ _ Hread), <- Hkeys.
  unfold keys. by rewrite length_fmap.
Qed.

(** X5. For a file of ASCII text, every value of every loaded record is
    ASCII text that is already normalized: it has no white space at either
    end and no upper-case letter, so stripping or lower-casing it again
    changes nothing. *)
Theorem read_data_values_are_normalized (w : world) path c d key record k v :
  fs w !! path = Some c →
  ascii_rows (csv_reader c) = true →
  (read_data path w).1 = Ok d →
  dict_get key d = Some record →
  dict_get k record = Some v →
  ∃ s, v = PStr s ∧ is_ascii s = true ∧ strip s = s ∧ lower s = s.
Proof.
  intros Hfile Hascii Hread Hrec Hv. rewrite (read_data_result _ _ _ Hfile) in Hread.
  pose (P := fun (_ : pyval) (record : list (pyval * pyval)) =>
    ∀ k v, dict_get k record = Some v →
           ∃ s, v = PStr s ∧ is_ascii s = true ∧ strip s = s ∧ lower s = s).
  assert (HP : P key record); [|by apply (HP k v)].
  eapply (loop_provenance _ _ _ P);
    [apply NoDup_keys_DictReader | | | exact Hread | exact Hrec]; [|done].
  intros row _ Hrow _ record' Hclean k' v' Hv'. rewrite Hclean in Hv'.
  destruct (dict_get k' row) as [[s0| |]|] eqn:Hget; simpl in Hv'; try done.
  injection Hv' as <-. exists (lower (strip s0)). split; [done|]. split.
  - apply is_ascii_lower, is_ascii_strip.
    by eapply (DictReader_values_ascii (csv_reader c) row k').
  - apply normalized_fixed.
Qed.

(** X6. Every loaded record has exactly the fields named in the header
    of the file, each with a text value. *)
Theorem read_data_records_have_header_fields
    (w : world) path c fieldnames body d key record :
  fs w !! path = Some c →
  csv_reader c = fieldnames :: body →
  (read_data path w).1 = Ok d →
  dict_get key d = Some record →
  (∀ k, is_Some (dict_get k record) ↔ ∃ f, f ∈ fieldnames ∧ k = PStr f)
  ∧ (∀ f, f ∈ fieldnames → ∃ s, dict_get (PStr f) record = Some (PStr s)).
Proof.
  intros Hfile Hrows Hread Hrec. rewrite (read_data_result _ _ _ Hfile) in Hread.
  unfold read_rows in Hread. rewrite Hrows in Hread. simpl in Hread.
  pose proof (loop_all_str _ _ _ Hread) as Hstr.
  pose (P := fun (_ : pyval) (record : list (pyval * pyval)) =>
    ∀ k, is_Some (dict_get k record) ↔ ∃ f, f ∈ fieldnames ∧ k = PStr f).
  assert (HP : P key record).
  { eapply (loop_provenance _ _ _ P); [| | | exact Hread | exact Hrec]; [| |done].
    - apply Forall_forall. intros ? (r & -> & _)%list_elem_of_fmap.
      apply NoDup_keys_row_dict.
    - intros ? _ (r & -> & Hr)%list_elem_of_fmap _ record' Hclean k.
      assert (Hs : all_str (row_dict fieldnames r)).
      { rewrite Forall_forall in Hstr. apply Hstr. by apply list_elem_of_fmap_2. }
      assert (Hlen : length r = length fieldnames).
      { destruct (decide (length r = length fieldnames)) as [|Hne]; [done|].
        by destruct (row_dict_ragged _ _ Hne). }
      rewrite <- (row_dict_full_keys _ _ k Hlen), Hclean.
      destruct (dict_get k (row_dict fieldnames r)) as [v|] eqn:Hg.
      + pose proof (dict_get_Some_key _ _ _ Hg) as Hk.
        apply dict_get_Some_value in Hg.
        unfold all_str in Hs. rewrite Forall_forall in Hs.
        destruct (Hs _ Hg) as [s Hv]. simpl in Hv. subst v. simpl.
        split; [done | by eexists].
      + simpl. apply dict_get_None in Hg. split; [by intros [? ?] | done]. }
  split; [exact HP|].
  intros f Hf. destruct (proj2 (HP (PStr f))) as [v Hv]; [by exists f|].
  assert (Hnorm : ∃ s, v = PStr s); [|destruct Hnorm as [s ->]; by exists s].
  pose (Q := fun (_ : pyval) (record : list (pyval * pyval)) =>
    ∀ k v, dict_get k record = Some v → ∃ s, v = PStr s).
  assert (HQ : Q key record); [|by apply (HQ (PStr f) v)].
  eapply (loop_provenance _ _ _ Q); [| | | exact Hread | exact Hrec]; [| |done].
  - apply Forall_forall. intros ? (r & -> & _)%list_elem_of_fmap.
    apply NoDup_keys_row_dict.
  - intros row _ _ _ record' Hclean k' v' Hv'. rewrite Hclean in Hv'.
    destruct (dict_get k' row) as [[s0| |]|]; simpl in Hv'; try done.
    injection Hv' as <-. by eexists.
Qed.

(** X7. A file without data rows (empty, header only, or blank lines
    after the header) loads as the empty collection, whatever its header;
    and the loaded collection is empty only for such a file. *)
Theorem read_data_empty_iff_no_rows (w : world) path c :
  fs w !! path = Some c →
  (DictReader (csv_reader c) = [] → (read_data path w).1 = Ok [])
  ∧ ((read_data path w).1 = Ok [] → DictReader (csv_reader c) = []).
Proof.
  intros Hfile. rewrite (read_data_result _ _ _ Hfile). unfold read_rows. split.
  - by intros ->.
  - intros Hread. destruct (DictReader (csv_reader c)) as [|r rows] eqn:Hrows; [done|].
    destruct (loop_presence _ _ _ Hread) as [_ Hpres].
    destruct (Hpres r (list_elem_of_here _ _)) as (raw & _ & [? Hget]). done.
Qed.

End LoadingMore.

Lemma main_missing_input_fails_first_witness :
  let w := ExactMatch.world0 [("model", ExactMatch.Model ["name"])] [ExactMatch.Yes] in
  main "in.csv" "out.csv" "model" "labels" ["name"] w
    = (Raise (AssertionError "Input file not found."), w).
Proof.
  intros w.
  refine (main_missing_input_fails_first w "in.csv" "out.csv" "model" "labels" ["name"] _).
  vm_compute. reflexivity.
Defined.

Lemma read_data_only_reads_witness :
  let w := ExactMatch.world0
             [("in.csv", ExactMatch.Text [["id"; "name"]; ["1"; "ann"]; ["2"]])] [] in
  fs (read_data "in.csv" w).2 = fs w
  ∧ handles (read_data "in.csv" w).2 = handles w
  ∧ calls (read_data "in.csv" w).2 = calls w
  ∧ stdin (read_data "in.csv" w).2 = stdin w.
Proof.
  intros w. refine (read_data_only_reads w "in.csv" _).
  intros fd _. apply lookup_empty.
Defined.

Lemma read_data_keys_are_row_ids_witness :
  let rows := [["id"; "name"]; [" A1 "; "x"]; ["a1"; "y"]] in
  let w := ExactMatch.world0 [("in.csv", ExactMatch.Text rows)] [] in
  PStr "a1" ∈ keys [(PStr " A1 ", [(PStr "id", PStr "a1"); (PStr "name", PStr "x")]);
                    (PStr "a1", [(PStr "id", PStr "a1"); (PStr "name", PStr "y")])]
  ↔ ∃ row, row ∈ DictReader rows ∧ dict_get (PStr "id") row = Some (PStr "a1").
Proof.
  intros rows w.
  refine (read_data_keys_are_row_ids w "in.csv" (ExactMatch.Text rows) _ (PStr "a1") _ _).
  - vm_compute. reflexivity.
  - vm_compute. reflexivity.
Defined.

Lemma read_data_distinct_ids_file_order_witness :
  let rows := [["id"; "name"]; ["2"; "x"]; ["1"; "y"]] in
  let w := ExactMatch.world0 [("in.csv", ExactMatch.Text rows)] [] in
  let d := [(PStr "2", [(PStr "id", PStr "2"); (PStr "name", PStr "x")]);
            (PStr "1", [(PStr "id", PStr "1"); (PStr "name", PStr "y")])] in
  keys d = row_ids (DictReader rows) ∧ length d = length (DictReader rows).
Proof.
  intros rows w d.
  refine (proj2 (read_data_distinct_ids_file_order w "in.csv" (ExactMatch.Text rows) d _ _) _).
  - vm_compute. reflexivity.
  - vm_compute. reflexivity.
  - apply (bool_decide_unpack _). vm_compute. exact I.
Defined.

Lemma read_data_values_are_normalized_witness :
  ∃ s, PStr "ann lee" = PStr s ∧ is_ascii s = true ∧ strip s = s ∧ lower s = s.
Proof.
  refine (read_data_values_are_normalized
            (ExactMatch.world0
               [("in.csv", ExactMatch.Text [["id"; "name"]; ["1"; "  Ann LEE "]])] [])
            "in.csv" (ExactMatch.Text [["id"; "name"]; ["1"; "  Ann LEE "]])
            [(PStr "1", [(PStr "id", PStr "1"); (PStr "name", PStr "ann lee")])]
            (PStr "1") [(PStr "id", PStr "1"); (PStr "name", PStr "ann lee")]
            (PStr "name") (PStr "ann lee") _ _ _ _ _).
  - vm_compute. reflexivity.
  - reflexivity.
  - vm_compute. reflexivity.
  - reflexivity.
  - reflexivity.
Defined.

Lemma read_data_records_have_header_fields_witness :
  let record := [(PStr "id", PStr "1"); (PStr "name", PStr "ann lee")] in
  (∀ k, is_Some (dict_get k record) ↔ ∃ f, f ∈ ["id"; "name"] ∧ k = PStr f)
  ∧ (∀ f, f ∈ ["id"; "name"] → ∃ s, dict_get (PStr f) record = Some (PStr s)).
Proof.
  intros record.
  refine (read_data_records_have_header_fields
            (ExactMatch.world0
               [("in.csv", ExactMatch.Text [["id"; "name"]; ["1"; "  Ann LEE "]])] [])
            "in.csv" (ExactMatch.Text [["id"; "name"]; ["1"; "  Ann LEE "]])
            ["id"; "name"] [["1"; "  Ann LEE "]]
            [(PStr "1", record)] (PStr "1") record _ _ _ _).
  - vm_compute. reflexivity.
  - reflexivity.
  - vm_compute. reflexivity.
  - reflexivity.
Defined.

Lemma read_data_empty_iff_no_rows_witness :
  let w := ExactMatch.world0 [("in.csv", ExactMatch.Text [["name"; "city"]; []; []])] [] in
  (read_data "in.csv" w).1 = Ok [].
Proof.
  intros w.
  refine (proj1 (read_data_empty_iff_no_rows w "in.csv"
                   (ExactMatch.Text [["name"; "city"]; []; []]) _) _).
  - vm_compute. reflexivity.
  - reflexivity.
Defined.

(** ** More on setting up, saving and writing the result *)

(** Case analysis on every library result met while executing. *)
Ltac exec_cases :=
  exec;
  repeat
    (match goal with
     | |- context [console_label ?d ?s] =>
         let r := fresh "r" in let rest := fresh "rest" in
         destruct (console_label d s) as [r rest] eqn:?
     | |- context [match ?r with Ok _ => _ | Raise _ => _ end] =>
         destruct r eqn:?
     | |- context [match ?o with Some _ => _ | None => _ end] =>
         destruct o eqn:?
     end; exec).

Section SetupMore.
Context `{lib : DedupeLib}.

(** X8. Without a settings file, and when every library call succeeds,
    [setup_deduper] builds the classifier from the declared fields, prepares
    training on the loaded data, runs the labelling loop on the console,
    trains, and then saves the training file and the settings file, in that
    order; it returns the object with the trained classifier and leaves no
    handle open. *)
Theorem setup_deduper_trains_and_saves
    (self : CSVDeduplicator) (w : world) d0 d1 d2 d3 rest ct cs :
  fresh_handles w →
  fs w !! settings_file self = None →
  Dedupe ((fun f => String_ f true) <$> fields self) = Ok d0 →
  prepare_training d0 (data self) = Ok d1 →
  console_label d1 (stdin w) = (Ok d2, rest) →
  train d2 = Ok d3 →
  write_training d3 = Ok ct →
  write_settings d3 = Ok cs →
  (setup_deduper self w).1 = Ok (set_deduper self d3)
  ∧ calls (setup_deduper self w).2
    = calls w ++ [CallDedupe; CallPrepareTraining; CallConsoleLabel; CallTrain;
                  CallWriteTraining; CallWriteSettings]
  ∧ stdin (setup_deduper self w).2 = rest
  ∧ fs (setup_deduper self w).2
    = <[settings_file self := cs]> (<[training_file self := ct]> (fs w))
  ∧ handles (setup_deduper self w).2 = handles w.
Proof.
  intros Hfresh Hno H0 H1 H2 H3 H4 H5.
  pose proof (Hfresh (next_fd w) (le_n _)) as Hf0.
  pose proof (Hfresh (S (next_fd w)) (le_S _ _ (le_n _))) as Hf1.
  rewrite <- append_definitions_map in H0.
  unfold setup_deduper, define_fields, active_learning, lib_console_label,
    save_settings_and_training.
  exec. rewrite H2. exec.
  rewrite <- !app_assoc. simpl. rewrite !insert_insert_eq.
  rewrite (delete_insert_id (handles w)) by done.
  rewrite delete_insert_id by done. done.
Qed.

(** X9. A successful first set-up makes the next one take the fast path:
    on the files it leaves, [setup_deduper] calls only [StaticDedupe], on
    the settings just written, and does not read the console. *)
Theorem setup_deduper_twice_loads
    (self : CSVDeduplicator) (w : world) d0 d1 d2 d3 rest ct cs :
  fresh_handles w →
  fs w !! settings_file self = None →
  Dedupe ((fun f => String_ f true) <$> fields self) = Ok d0 →
  prepare_training d0 (data self) = Ok d1 →
  console_label d1 (stdin w) = (Ok d2, rest) →
  train d2 = Ok d3 →
  write_training d3 = Ok ct →
  write_settings d3 = Ok cs →
  let w1 := (setup_deduper self w).2 in
  (setup_deduper self w1).1 = rbind (StaticDedupe cs) (fun d => Ok (set_deduper self d))
  ∧ calls (setup_deduper self w1).2 = calls w1 ++ [CallStaticDedupe]
  ∧ stdin (setup_deduper self w1).2 = stdin w1.
Proof.
  intros Hfresh Hno H0 H1 H2 H3 H4 H5 w1.
  destruct (setup_deduper_trains_and_saves self w _ _ _ _ _ _ _
              Hfresh Hno H0 H1 H2 H3 H4 H5) as (_ & _ & _ & Hfs & _).
  assert (Hfile : fs w1 !! settings_file self = Some cs).
  { unfold w1. rewrite Hfs. apply lookup_insert_eq. }
  by rewrite (setup_deduper_load self w1 cs Hfile).
Qed.

(** X10. When training raises, the run ends with that exception after
    the labelling loop has consumed the console replies: nothing is saved,
    no file is changed, the matcher is never called and no handle is left
    open. *)
Theorem run_training_failure_saves_nothing
    (self : CSVDeduplicator) (w : world) d0 d1 d2 rest e :
  fs w !! settings_file self = None →
  Dedupe ((fun f => String_ f true) <$> fields self) = Ok d0 →
  prepare_training d0 (data self) = Ok d1 →
  console_label d1 (stdin w) = (Ok d2, rest) →
  train d2 = Raise e →
  (run self w).1 = Raise e
  ∧ calls (run self w).2
    = calls w ++ [CallDedupe; CallPrepareTraining; CallConsoleLabel; CallTrain]
  ∧ stdin (run self w).2 = rest
  ∧ fs (run self w).2 = fs w
  ∧ handles (run self w).2 = handles w.
Proof.
  intros Hno H0 H1 H2 H3. rewrite <- append_definitions_map in H0.
  unfold run, setup_deduper, define_fields, active_learning, lib_console_label.
  exec. rewrite H2. exec. by rewrite <- !app_assoc.
Qed.

(** X11. When the library raises while writing the training data, the
    save stops there: the training file, truncated when it was opened, is
    left with whatever the library had written so far, its previous content
    is gone, the settings are never written and the handle is closed. *)
Theorem save_training_failure_leaves_partial_file
    (self : CSVDeduplicator) (w : world) d e :
  fresh_handles w →
  write_training d = Raise e →
  (save_settings_and_training self d w).1 = Raise e
  ∧ fs (save_settings_and_training self d w).2
    = <[training_file self := partial_training d]> (fs w)
  ∧ calls (save_settings_and_training self d w).2 = calls w ++ [CallWriteTraining]
  ∧ handles (save_settings_and_training self d w).2 = handles w.
Proof.
  intros Hfresh He. pose proof (Hfresh (next_fd w) (le_n _)) as Hf0.
  unfold save_settings_and_training. exec.
  by rewrite insert_insert_eq, delete_insert_id.
Qed.

(** X12. When the library raises while writing the settings, the training
    file has been written and the settings file is left with whatever the
    library had written so far.  The file exists, so the next
    [setup_deduper] does not retrain: it hands that partial file to
    [StaticDedupe]. *)
Theorem save_settings_failure_blocks_retraining
    (self : CSVDeduplicator) (w : world) d ct e :
  write_training d = Ok ct →
  write_settings d = Raise e →
  let w1 := (save_settings_and_training self d w).2 in
  (save_settings_and_training self d w).1 = Raise e
  ∧ fs w1 = <[settings_file self := partial_settings d]>
              (<[training_file self := ct]> (fs w))
  ∧ (setup_deduper self w1).1
    = rbind (StaticDedupe (partial_settings d)) (fun d' => Ok (set_deduper self d'))
  ∧ calls (setup_deduper self w1).2
    = calls w ++ [CallWriteTraining; CallWriteSettings; CallStaticDedupe].
Proof.
  intros Ht Hs w1.
  assert (Hsave : (save_settings_and_training self d w).1 = Raise e
    ∧ fs w1 = <[settings_file self := partial_settings d]>
                (<[training_file self := ct]> (fs w))
    ∧ calls w1 = calls w ++ [CallWriteTraining; CallWriteSettings]).
  { unfold w1, save_settings_and_training. exec.
    rewrite !insert_insert_eq, <- app_assoc. done. }
  destruct Hsave as (Hr & Hfs & Hcalls).
  split; [done|]. split; [done|].
  assert (Hfile : fs w1 !! settings_file self = Some (partial_settings d)).
  { rewrite Hfs. apply lookup_insert_eq. }
  rewrite (setup_deduper_load self w1 _ Hfile). simpl.
  split; [done|]. by rewrite Hcalls, <- app_assoc.
Qed.

(** X13. Whenever [deduplicate] raises, because the object has no
    classifier or because the matcher raises, it has not opened the output
    file: the files and the open handles are as before. *)
Theorem deduplicate_failure_leaves_files (self : CSVDeduplicator) (w : world) e :
  (deduplicate self w).1 = Raise e →
  fs (deduplicate self w).2 = fs w
  ∧ handles (deduplicate self w).2 = handles w.
Proof.
  unfold deduplicate. destruct (deduper self) as [d|]; [|done].
  exec. destruct (match_ d (data self) (1 # 2)); exec; done.
Qed.

(** X14. When the saved classifier cannot be loaded, the run ends with
    the library's exception: it does not fall back to training, the matcher
    is never called and no file is changed. *)
Theorem run_load_failure_stops (self : CSVDeduplicator) (w : world) c e :
  fs w !! settings_file self = Some c →
  StaticDedupe c = Raise e →
  (run self w).1 = Raise e
  ∧ calls (run self w).2 = calls w ++ [CallStaticDedupe]
  ∧ stdin (run self w).2 = stdin w
  ∧ fs (run self w).2 = fs w.
Proof.
  intros Hfile Hload. unfold run, bind.
  rewrite (setup_deduper_load _ _ _ Hfile), Hload. done.
Qed.

(** X15. A run changes no file other than the training file, the settings
    file and the output file, whatever the library does. *)
Theorem run_touches_only_its_files (self : CSVDeduplicator) (w : world) path :
  path ≠ training_file self →
  path ≠ settings_file self →
  path ≠ output_file self →
  fs (run self w).2 !! path = fs w !! path.
Proof.
  intros Ht Hs Ho.
  destruct (fs w !! settings_file self) as [c|] eqn:Hfile.
  - unfold run, bind. rewrite (setup_deduper_load _ _ _ Hfile).
    destruct (StaticDedupe c); simpl; [|done].
    unfold deduplicate. exec_cases; rewrite ?lookup_insert_ne by done; done.
  - unfold run, setup_deduper, define_fields, active_learning, lib_console_label,
      save_settings_and_training, deduplicate.
    exec_cases; rewrite ?lookup_insert_ne by done; done.
Qed.

End SetupMore.

(** ** More on the output rows *)

Lemma cluster_of_cluster_rows n (cluster : list pyval * list Q) :
  omap cluster_of (cluster_rows n cluster)
  = replicate (min (length cluster.1) (length cluster.2)) n.
Proof.
  destruct cluster as [records scores]. unfold cluster_rows. simpl.
  revert scores. induction records as [|r records IH]; intros [|s scores]; simpl; try done.
  by rewrite IH.
Qed.

Lemma cluster_column_imap (f : nat → nat) (cs : list (list pyval * list Q)) :
  omap cluster_of (concat (imap (fun i => cluster_rows (f i)) cs))
  = concat (imap (fun i c => replicate (min (length c.1) (length c.2)) (f i)) cs).
Proof.
  revert f. induction cs as [|c cs IH]; intros f; [done|].
  simpl. rewrite omap_app, cluster_of_cluster_rows. f_equal. apply (IH (f ∘ S)).
Qed.

(** X16. The rows below the header come cluster by cluster, in the
    matcher's order, numbered from 0 by position; a cluster contributes as
    many rows as it has records with a score, so records beyond the number
    of scores (or scores beyond the number of records) are dropped. *)
Theorem output_rows_numbered_by_position (cs : list (list pyval * list Q)) :
  omap cluster_of (tail (output_rows cs))
  = concat (imap (fun i c => replicate (min (length c.1) (length c.2)) i) cs)
  ∧ length (output_rows cs)
    = S (sum_list ((fun c => min (length c.1) (length c.2)) <$> cs)).
Proof.
  split; [exact (cluster_column_imap id cs)|].
  unfold output_rows. simpl. f_equal.
  assert (H : ∀ f : nat → nat,
    length (concat (imap (fun i => cluster_rows (f i)) cs))
    = sum_list ((fun c => min (length c.1) (length c.2)) <$> cs)); [|exact (H id)].
  induction cs as [|[records scores] cs IH]; intros f; [done|].
  simpl. rewrite length_app. unfold cluster_rows at 1. simpl.
  rewrite length_fmap, length_zip_with. f_equal. apply (IH (f ∘ S)).
Qed.

Lemma setup_deduper_trains_and_saves_witness :
  let self := Self "in.csv" "out.csv" "model" "labels" ["name"] None [] in
  let w := ExactMatch.world0 [] [ExactMatch.Yes; ExactMatch.Finished; ExactMatch.No] in
  let d := ExactMatch.Deduper_ ["name"] 1 in
  (setup_deduper self w).1 = Ok (set_deduper self d)
  ∧ calls (setup_deduper self w).2
    = calls w ++ [CallDedupe; CallPrepareTraining; CallConsoleLabel; CallTrain;
                  CallWriteTraining; CallWriteSettings]
  ∧ stdin (setup_deduper self w).2 = [ExactMatch.No]
  ∧ fs (setup_deduper self w).2
    = <["model" := ExactMatch.Model ["name"]]> (<["labels" := ExactMatch.Labels 1]> (fs w))
  ∧ handles (setup_deduper self w).2 = handles w.
Proof.
  intros self w d.
  refine (setup_deduper_trains_and_saves self w
            (ExactMatch.Deduper_ ["name"] 0) (ExactMatch.Deduper_ ["name"] 0)
            d d [ExactMatch.No] (ExactMatch.Labels 1) (ExactMatch.Model ["name"])
            _ _ _ _ _ _ _ _); try reflexivity.
  intros fd _. apply lookup_empty.
Defined.

Lemma setup_deduper_twice_loads_witness :
  let self := Self "in.csv" "out.csv" "model" "labels" ["name"] None [] in
  let w := ExactMatch.world0 [] [ExactMatch.Yes; ExactMatch.Finished; ExactMatch.No] in
  let w1 := (setup_deduper self w).2 in
  (setup_deduper self w1).1
    = rbind (StaticDedupe (ExactMatch.Model ["name"])) (fun d => Ok (set_deduper self d))
  ∧ calls (setup_deduper self w1).2 = calls w1 ++ [CallStaticDedupe]
  ∧ stdin (setup_deduper self w1).2 = stdin w1.
Proof.
  intros self w.
  refine (setup_deduper_twice_loads self w
            (ExactMatch.Deduper_ ["name"] 0) (ExactMatch.Deduper_ ["name"] 0)
            (ExactMatch.Deduper_ ["name"] 1) (ExactMatch.Deduper_ ["name"] 1)
            [ExactMatch.No] (ExactMatch.Labels 1) (ExactMatch.Model ["name"])
            _ _ _ _ _ _ _ _); try reflexivity.
  intros fd _. apply lookup_empty.
Defined.

Lemma run_training_failure_saves_nothing_witness :
  let self := Faulty.self0 false false in
  let w := Faulty.world0 false false [] [ExactMatch.Unsure; ExactMatch.Finished] in
  let e := LibraryError "ValueError" "no labelled pairs to train on" in
  (run self w).1 = Raise e
  ∧ calls (run self w).2
    = calls w ++ [CallDedupe; CallPrepareTraining; CallConsoleLabel; CallTrain]
  ∧ stdin (run self w).2 = []
  ∧ fs (run self w).2 = fs w
  ∧ handles (run self w).2 = handles w.
Proof.
  intros self w e.
  refine (@run_training_failure_saves_nothing (Faulty.lib false false) self w
            (ExactMatch.Deduper_ ["name"] 0) (ExactMatch.Deduper_ ["name"] 0)
            (ExactMatch.Deduper_ ["name"] 0) [] e _ _ _ _ _); reflexivity.
Defined.

Lemma save_training_failure_leaves_partial_file_witness :
  let self := Faulty.self0 true false in
  let w := Faulty.world0 true false [("labels", ExactMatch.Labels 7)] [] in
  let d := ExactMatch.Deduper_ ["name"] 2 in
  let e := LibraryError "OSError" "No space left on device" in
  (save_settings_and_training self d w).1 = Raise e
  ∧ fs (save_settings_and_training self d w).2 = <["labels" := ExactMatch.Labels 1]> (fs w)
  ∧ calls (save_settings_and_training self d w).2 = calls w ++ [CallWriteTraining]
  ∧ handles (save_settings_and_training self d w).2 = handles w.
Proof.
  intros self w d e.
  refine (@save_training_failure_leaves_partial_file (Faulty.lib true false) self w d e _ _).
  - intros fd _. apply lookup_empty.
  - reflexivity.
Defined.

Lemma save_settings_failure_blocks_retraining_witness :
  let self := Faulty.self0 false true in
  let w := Faulty.world0 false true [] [] in
  let d := ExactMatch.Deduper_ ["name"] 2 in
  let e := LibraryError "OSError" "No space left on device" in
  let w1 := (save_settings_and_training self d w).2 in
  (save_settings_and_training self d w).1 = Raise e
  ∧ fs w1 = <["model" := ExactMatch.Model []]> (<["labels" := ExactMatch.Labels 2]> (fs w))
  ∧ (setup_deduper self w1).1
    = rbind (ExactMatch.load (ExactMatch.Model [])) (fun d' => Ok (set_deduper self d'))
  ∧ calls (setup_deduper self w1).2
    = calls w ++ [CallWriteTraining; CallWriteSettings; CallStaticDedupe].
Proof.
  intros self w d e.
  refine (@save_settings_failure_blocks_retraining (Faulty.lib false true) self w d
            (ExactMatch.Labels 2) e _ _); reflexivity.
Defined.

Lemma deduplicate_failure_leaves_files_witness :
  let self := Self "in.csv" "out.csv" "model" "labels" ["name"] None [] in
  let w := ExactMatch.world0 [("out.csv", ExactMatch.Text [["kept"]])] [] in
  fs (deduplicate self w).2 = fs w ∧ handles (deduplicate self w).2 = handles w.
Proof.
  intros self w.
  refine (deduplicate_failure_leaves_files self w
            (AttributeError "'NoneType' object has no attribute 'match'") _).
  reflexivity.
Defined.

Lemma run_load_failure_stops_witness :
  let self := Self "in.csv" "out.csv" "model" "labels" ["name"] None [] in
  let w := ExactMatch.world0 [("model", ExactMatch.Empty)] [ExactMatch.Yes] in
  let e := LibraryError "SettingsFileLoadError" "cannot load settings" in
  (run self w).1 = Raise e
  ∧ calls (run self w).2 = calls w ++ [CallStaticDedupe]
  ∧ stdin (run self w).2 = stdin w
  ∧ fs (run self w).2 = fs w.
Proof.
  intros self w e.
  refine (run_load_failure_stops self w ExactMatch.Empty e _ _).
  - vm_compute. reflexivity.
  - reflexivity.
Defined.

Lemma run_touches_only_its_files_witness :
  let self := Self "in.csv" "out.csv" "model" "labels" ["name"] None [] in
  let w := ExactMatch.world0 [("in.csv", ExactMatch.Text [["id"; "name"]])]
                             [ExactMatch.Finished] in
  fs (run self w).2 !! "in.csv" = fs w !! "in.csv".
Proof.
  intros self w.
  refine (run_touches_only_its_files self w "in.csv" _ _ _); discriminate.
Defined.

(** ** The prompt templates *)

(** X17. For each of the four template classes and whatever arguments
    the object is built from, [response()] issues one request, to model
    [gpt-4o] with the module's API key, holding a single message whose
    [content] is the templated prompt and whose [role] is that same prompt
    text; the role sent is never ["system"], the default role of
    [generate_response].  The value returned is the content of the first
    choice. *)
Theorem template_response_sends_prompt_as_role
    (API_KEY : string) (create : string → string → list Gpt.message → Gpt.completion) :
  let sent h :=
    Gpt.first_content (create API_KEY "gpt-4o" [Gpt.Message (Gpt.prompt h) (Gpt.prompt h)]) in
  (∀ prompt, let h := Gpt.PromptOptimizer API_KEY prompt in
     Gpt.response create h = sent h ∧ Gpt.prompt h ≠ "system")
  ∧ (∀ task output context data, let h := Gpt.TOCD API_KEY task output context data in
     Gpt.response create h = sent h ∧ Gpt.prompt h ≠ "system")
  ∧ (∀ role task audience output, let h := Gpt.RTAO API_KEY role task audience output in
     Gpt.response create h = sent h ∧ Gpt.prompt h ≠ "system")
  ∧ (∀ role behavior task structure constraints data,
     let h := Gpt.Ultimate API_KEY role behavior task structure constraints data in
     Gpt.response create h = sent h ∧ Gpt.prompt h ≠ "system").
Proof.
  intros sent. repeat split; try (intros H; cbn in H; discriminate H).
Qed.
